(** * bench_generation.py: a shallow embedding and its checked properties

    The script [examples/pytorch/text-generation/bench_generation.py] times
    repeated calls of a text generation routine and aggregates the timings.

    Conventions of the embedding.
    - Python [int] is [Z]; Python [float] is the IEEE binary64 type [float]
      of the primitive floats, with the same rounding as CPython.
    - Python [str] is [string]; a character is one [ascii] code unit, so
      [str.lower] is the ASCII lowering.
    - A [dict] used as a table is a [gmap] with string keys; the per-run
      record, whose keys are fixed, is a Rocq record.
    - An exception is a value of [exn]; code that may raise returns
      [result].  Code that calls the collaborators (tokenizer, model, clock,
      random seed, console, the two output files) runs in the state and
      exception monad [M] over an abstract [World], and appends every
      collaborator call that matters to a [trace].
    - Standard input is a finite list of lines; [input] raises [EOFError]
      once it is used up.
    - Device placement and numeric precision ([PartialState], [model.to],
      [model.half], [tensor.to]) move data without changing the values the
      script looks at and are left out, as are the [logger] and [print]
      calls and the default padding token of line 450.
    - The tracing path (lines 188-308 and 468-483) only prepares tensors for
      the tracing compiler and wraps its result; it is the single
      collaborator call [jit_trace]. *)

From Stdlib Require Import ZArith Floats String Ascii List Sorted Permutation Lia.
From stdpp Require Import gmap strings list fin_maps.

Open Scope string_scope.
Open Scope Z_scope.

(* ===================================================================== *)
(** * Exceptions and results *)
(* ===================================================================== *)

Inductive exn : Type :=
| KeyError (msg : string)
| ValueError (msg : string)
| TypeError (msg : string)
| AttributeError (msg : string)
| IndexError (msg : string)
| ZeroDivisionError (msg : string)
| OverflowError (msg : string)
| StatisticsError (msg : string)
| EOFError
| OSError (msg : string)
| CollaboratorError (msg : string).

Inductive result (A : Type) : Type :=
| Ok (a : A)
| Raise (e : exn).
Arguments Ok {A} a.
Arguments Raise {A} e.

Definition result_bind {A B} (r : result A) (k : A -> result B) : result B :=
  match r with
  | Ok a => k a
  | Raise e => Raise e
  end.

Definition is_ok {A} (r : result A) : bool :=
  match r with Ok _ => true | Raise _ => false end.

(* ===================================================================== *)
(** * Python built-ins used by the script *)
(* ===================================================================== *)

Module Py.

(** [len(s)] for a string and for a list. *)
Definition str_len (s : string) : Z := Z.of_nat (String.length s).
Definition len {A} (l : list A) : Z := Z.of_nat (List.length l).

(** Truth value of a string: empty is false. *)
Definition str_truthy (s : string) : bool :=
  match s with EmptyString => false | String _ _ => true end.

(** [text.find(sub)]: the lowest index at which [sub] occurs, or -1. *)
Definition str_find (text sub : string) : Z :=
  match String.index 0 sub text with
  | Some n => Z.of_nat n
  | None => -1
  end.

(** Normalisation of a slice bound against a length [n]: a missing bound
    is given by [dflt], a negative one counts from the end, and both are
    clamped to [0, n]. *)
Definition slice_bound (n : Z) (dflt : Z) (b : option Z) : Z :=
  match b with
  | None => dflt
  | Some k => if k <? 0 then Z.max (n + k) 0 else Z.min k n
  end.

(** [text[start:stop]] with step 1. *)
Definition str_slice (text : string) (start stop : option Z) : string :=
  let n := str_len text in
  let lo := slice_bound n 0 start in
  let hi := slice_bound n n stop in
  String.substring (Z.to_nat lo) (Z.to_nat (hi - lo)) text.

(** [s.lower()] on ASCII code units. *)
Definition ascii_lower (c : ascii) : ascii :=
  let n := nat_of_ascii c in
  if ((65 <=? n)%nat && (n <=? 90)%nat)%bool then ascii_of_nat (n + 32) else c.

Fixpoint str_lower (s : string) : string :=
  match s with
  | EmptyString => EmptyString
  | String c s' => String (ascii_lower c) (str_lower s')
  end.

(** [range(n)]: empty when [n <= 0]. *)
Definition range (n : Z) : list Z := map Z.of_nat (seq 0 (Z.to_nat n)).

(** [l[i]] for a non-negative index. *)
Definition getitem {A} (l : list A) (i : Z) : result A :=
  if i <? 0 then Raise (IndexError "list index out of range")
  else match nth_error l (Z.to_nat i) with
       | Some x => Ok x
       | None => Raise (IndexError "list index out of range")
       end.

(** [sum] of a list of integers. *)
Definition sum (l : list Z) : Z := fold_left Z.add l 0.

(** Conversion of an [int] to a [float], rounding to nearest even; an
    integer beyond the binary64 range raises. *)
Definition float_of_int (n : Z) : result float :=
  let f := SF2Prim (binary_normalize prec emax n 0 false) in
  if PrimFloat.is_infinity f
  then Raise (OverflowError "int too large to convert to float")
  else Ok f.

(** [n / x] for an [int] and a [float]: the operands are converted first,
    then a zero divisor raises. *)
Definition truediv_int_float (n : Z) (x : float) : result float :=
  result_bind (float_of_int n) (fun a =>
    if PrimFloat.eqb x PrimFloat.zero
    then Raise (ZeroDivisionError "float division by zero")
    else Ok (PrimFloat.div a x)).

(** [sorted(data)] on floats: a stable sort that compares with [<]. *)
Fixpoint insort (x : float) (l : list float) : list float :=
  match l with
  | [] => [x]
  | y :: l' => if PrimFloat.ltb x y then x :: y :: l' else y :: insort x l'
  end.

Definition sorted (data : list float) : list float :=
  fold_left (fun acc x => insort x acc) data [].

(** [statistics.median(data)] of the standard library: the middle element
    of the sorted data, or the mean of the two middle ones. *)
Definition statistics_median (data : list float) : result float :=
  let data := sorted data in
  let n := len data in
  if n =? 0 then Raise (StatisticsError "no median for empty data")
  else if n mod 2 =? 1 then getitem data (n / 2)
  else
    let i := n / 2 in
    result_bind (getitem data (i - 1)) (fun a =>
    result_bind (getitem data i) (fun b =>
    Ok (PrimFloat.div (PrimFloat.add a b) 2%float))).

End Py.

(* ===================================================================== *)
(** * Module-level tables and constants (lines 87-100) *)
(* ===================================================================== *)

Definition MAX_LENGTH : Z := 10000.

Inductive model_class : Type :=
| GPT2LMHeadModel | CTRLLMHeadModel | OpenAIGPTLMHeadModel | XLNetLMHeadModel
| TransfoXLLMHeadModel | XLMWithLMHeadModel | GPTJForCausalLM
| BloomForCausalLM | LlamaForCausalLM | OPTForCausalLM.

Inductive tokenizer_class : Type :=
| GPT2Tokenizer | CTRLTokenizer | OpenAIGPTTokenizer | XLNetTokenizer
| TransfoXLTokenizer | XLMTokenizer | AutoTokenizer | BloomTokenizerFast
| LlamaTokenizer.

Definition MODEL_CLASSES_items : list (string * (model_class * tokenizer_class)) :=
  [ ("gpt2", (GPT2LMHeadModel, GPT2Tokenizer));
    ("ctrl", (CTRLLMHeadModel, CTRLTokenizer));
    ("openai-gpt", (OpenAIGPTLMHeadModel, OpenAIGPTTokenizer));
    ("xlnet", (XLNetLMHeadModel, XLNetTokenizer));
    ("transfo-xl", (TransfoXLLMHeadModel, TransfoXLTokenizer));
    ("xlm", (XLMWithLMHeadModel, XLMTokenizer));
    ("gptj", (GPTJForCausalLM, AutoTokenizer));
    ("bloom", (BloomForCausalLM, BloomTokenizerFast));
    ("llama", (LlamaForCausalLM, LlamaTokenizer));
    ("opt", (OPTForCausalLM, GPT2Tokenizer)) ].

Definition MODEL_CLASSES : gmap string (model_class * tokenizer_class) :=
  list_to_map MODEL_CLASSES_items.

(* ===================================================================== *)
(** * Pure helpers of the script *)
(* ===================================================================== *)

(** Lines 178-185. *)
Definition adjust_length_to_model (length max_sequence_length : Z) : Z :=
  if ((length <? 0) && (0 <? max_sequence_length))%bool then max_sequence_length
  else if ((0 <? max_sequence_length) && (max_sequence_length <? length))%bool
       then max_sequence_length
  else if length <? 0 then MAX_LENGTH
  else length.

(** Lines 399-405: the dtype the model is loaded with. *)
Inductive torch_dtype : Type := torch_float16 | torch_float32 | dtype_auto.

Definition set_torch_dtype (s : string) : torch_dtype :=
  if String.eqb s "float16" then torch_float16
  else if String.eqb s "auto" then dtype_auto
  else torch_float32.

(** Lines 407-411: the effective cache flag. *)
Definition set_use_cache (use_cache : string) : bool :=
  if String.eqb use_cache "False" then false else true.

(** Lines 441-446: the model type is lowered, then looked up; a missing key
    is reported by a fresh [KeyError]. *)
Definition unsupported_model_message : string :=
  "the model {} you specified is not supported. You are welcome to add it and open a PR :)".

Definition lookup_model_classes (model_type : string)
  : result (string * (model_class * tokenizer_class)) :=
  let model_type := Py.str_lower model_type in
  match MODEL_CLASSES !! model_type with
  | Some classes => Ok (model_type, classes)
  | None => Raise (KeyError unsupported_model_message)
  end.

(** Line 563: [text[: text.find(stop_token) if stop_token else None]]. *)
Definition truncate_at_stop_token (text : string) (stop_token : option string) : string :=
  Py.str_slice text None
    (match stop_token with
     | Some tok => if Py.str_truthy tok then Some (Py.str_find text tok) else None
     | None => None
     end).


(** Lines 105-114: the filler passage for short prompts. *)
Definition PREFIX : string :=
"In 1991, the remains of Russian Tsar Nicholas II and his family
(except for Alexei and Maria) are discovered.
The voice of Nicholas's young son, Tsarevich Alexei Nikolaevich, narrates the
remainder of the story. 1883 Western Siberia,
a young Grigori Rasputin is asked by his father and a group of men to perform magic.
Rasputin has a vision and denounces one of the men as a horse thief. Although his
father initially slaps him for making such an accusation, Rasputin watches as the
man is chased outside and beaten. Twenty years later, Rasputin sees a vision of
the Virgin Mary, prompting him to become a priest. Rasputin quickly becomes famous,
with people, even a bishop, begging for his blessing. <eod> </s> <eos>".

(* ===================================================================== *)
(** * Data model *)
(* ===================================================================== *)

(** A two-dimensional integer tensor or array: a batch of token rows. *)
Definition tensor : Type := list (list Z).

(** [t.size()[-1]]: the length of a row. *)
Definition size_last (t : tensor) : Z :=
  match t with
  | [] => 0
  | row :: _ => Py.len row
  end.

(** The parsed command line (lines 312-397), one field per flag the model
    reads. *)
Module args.
Record t : Type := mk {
  model_type : string;
  model_name_or_path : string;
  prompt : string;
  length : Z;
  stop_token : option string;
  temperature : float;
  repetition_penalty : float;
  k : Z;
  p : float;
  prefix : string;
  padding_text : string;
  xlm_language : string;
  seed : Z;
  num_return_sequences : Z;
  jit : bool;
  torch_dtype : string;
  use_cache : string;
  cache_dir : string;
  n_warmup_runs : Z;
  n_runs : Z;
  output_sequences : bool;
  same_seed : bool;
  records_file : string;
  metrics_file : string;
  max_new_tokens : option Z;
  min_new_tokens : option Z;
  preset_prompt : option string;
}.
End args.

(** The keyword arguments of [model.generate] (lines 529-541). *)
Module kw.
Record t : Type := mk {
  use_cache : bool;
  input_ids : option tensor;
  max_length : Z;
  max_new_tokens : option Z;
  min_new_tokens : option Z;
  temperature : float;
  top_k : Z;
  top_p : float;
  repetition_penalty : float;
  do_sample : bool;
  num_return_sequences : Z;
}.
End kw.

(** One benchmark record (lines 582-597).  The three keys added under
    [--output_sequences] come together. *)
Module rec.
Record t : Type := mk {
  latency : float;
  warmup : bool;
  input_lengths : list Z;
  output_lengths : list Z;
  total_tokens : Z;
  batch_size : Z;
  max_length : Z;
  max_new_tokens : option Z;
  min_new_tokens : option Z;
  tokens_per_second : float;
  sequences : option (tensor * tensor * list string);
}.
End rec.

(** The loaded tokenizer: what the script calls on it. *)
Record tokenizer : Type := {
  tok_encode : bool -> string -> list Z;  (* flag: add_space_before_punct_symbol *)
  tok_decode : list Z -> string;
  control_codes : list Z;                 (* control_codes.values() *)
}.

(** [tokenizer.encode(text, return_tensors="pt")]: a batch of one row. *)
Definition encode_pt (tok : tokenizer) (add_space : bool) (text : string) : tensor :=
  [tok_encode tok add_space text].

(** The loaded model: the class name and the configuration attributes the
    script reads. *)
Record model : Type := {
  class_name : string;
  max_position_embeddings : option Z;
  use_lang_emb : bool;                    (* present and true *)
  lang2id : option (gmap string Z);
}.

(** Calls to collaborators, in the order they happen.  An event is
    appended when the call is made, before its outcome is known; for the two
    dumps (lines 625-631) this is the moment the file is opened for
    writing. *)
Inductive event : Type :=
| EvSetSeed (seed : Z)
| EvTokenizerFromPretrained (cls : tokenizer_class) (name : string)
| EvModelFromPretrained (cls : model_class) (name : string)
    (dtype : torch_dtype) (cache_dir : string)
| EvJitTrace
| EvSetLangId (id : Z)
| EvGenerate (kwargs : kw.t)
| EvDumpRecords (file : string) (records : list rec.t)
| EvDumpMetrics (file : string) (metrics : gmap string float).

Definition is_load_event (e : event) : bool :=
  match e with
  | EvTokenizerFromPretrained _ _ | EvModelFromPretrained _ _ _ _ => true
  | _ => false
  end.

(** The collaborators, as functions of an abstract world. *)
Class Services (World : Type) : Type := {
  time_time : World -> float * World;
  set_seed : Z -> World -> World;
  prompt_file_path : string -> string;
  read_file : string -> World -> option string;   (* [None]: not a file *)
  tokenizer_from_pretrained :
    tokenizer_class -> string -> World -> result tokenizer * World;
  model_from_pretrained :
    model_class -> string -> torch_dtype -> string -> World -> result model * World;
  jit_trace : model -> tokenizer -> World -> result model * World;
  set_lang_id : Z -> World -> World;
  generate : model -> kw.t -> World -> result tensor * World;
  dump_records : string -> list rec.t -> World -> result unit * World;
  dump_metrics : string -> gmap string float -> World -> result unit * World;
}.

(* ===================================================================== *)
(** * The state and exception monad *)
(* ===================================================================== *)

Section Monad.
Context {World : Type}.

Record state : Type := mkState {
  world : World;
  stdin : list string;
  trace : list event;
}.

Definition M (A : Type) : Type := state -> result A * state.

Definition ret {A} (a : A) : M A := fun s => (Ok a, s).

Definition bind {A B} (c : M A) (k : A -> M B) : M B :=
  fun s =>
    match c s with
    | (Ok a, s') => k a s'
    | (Raise e, s') => (Raise e, s')
    end.

Definition raise {A} (e : exn) : M A := fun s => (Raise e, s).

Definition lift {A} (r : result A) : M A := fun s => (r, s).

Definition emit (e : event) : M unit :=
  fun s => (Ok tt, mkState (world s) (stdin s) (trace s ++ [e])).

(** A collaborator that may raise, and one that cannot. *)
Definition call {A} (f : World -> result A * World) : M A :=
  fun s => let '(r, w) := f (world s) in (r, mkState w (stdin s) (trace s)).

Definition call_total {A} (f : World -> A * World) : M A :=
  fun s => let '(a, w) := f (world s) in (Ok a, mkState w (stdin s) (trace s)).

Definition update (f : World -> World) : M unit :=
  fun s => (Ok tt, mkState (f (world s)) (stdin s) (trace s)).

Definition ask {A} (f : World -> A) : M A := fun s => (Ok (f (world s)), s).

(** [input(...)]: the next line of standard input. *)
Definition input (_ : string) : M string :=
  fun s =>
    match stdin s with
    | [] => (Raise EOFError, s)
    | line :: rest => (Ok line, mkState (world s) rest (trace s))
    end.

End Monad.
Arguments state World : clear implicits.
Arguments M World A : clear implicits.

Notation "'let*' x ':=' c 'in' k" := (bind c (fun x => k))
  (at level 10, x name, c at level 100, k at level 200).
Notation "c ';;;' k" := (bind c (fun _ => k))
  (at level 100, k at level 200, right associativity).

(* ===================================================================== *)
(** * The script *)
(* ===================================================================== *)

Section Script.
Context {World : Type} {SV : Services World}.

Local Abbreviation M := (M World).

(** ** Functions to prepare models' input (lines 122-175) *)

(** Lines 122-129.  The prompt is encoded only to look at its first
    token; [encoded_prompt[0]] is evaluated once per control code. *)
Definition prepare_ctrl_input (a : args.t) (_ : model) (tok : tokenizer)
    (prompt_text : string) : M string :=
  let encoded_prompt := tok_encode tok false prompt_text in
  match control_codes tok with
  | [] => ret prompt_text
  | _ :: _ =>
      let* _ := lift (Py.getitem encoded_prompt 0) in
      ret prompt_text
  end.

(** Lines 143-144: [input] is repeated until a listed language is typed. *)
Fixpoint input_until (valid : string -> bool) (lines : list string)
  : result string * list string :=
  match lines with
  | [] => (Raise EOFError, [])
  | line :: rest => if valid line then (Ok line, rest) else input_until valid rest
  end.

Definition select_language (lang2id : gmap string Z) : M string :=
  fun s =>
    let '(r, rest) := input_until (fun l => bool_decide (is_Some (lang2id !! l))) (stdin s) in
    (r, mkState (world s) rest (trace s)).

(** Lines 132-155. *)
Definition prepare_xlm_input (a : args.t) (m : model) (_ : tokenizer)
    (prompt_text : string) : M string :=
  match lang2id m with
  | Some available_languages =>
      if use_lang_emb m then
        let* language :=
          (if bool_decide (is_Some (available_languages !! args.xlm_language a))
           then ret (args.xlm_language a)
           else select_language available_languages) in
        match available_languages !! language with
        | Some id =>
            update (set_lang_id id);;;
            emit (EvSetLangId id);;;
            ret prompt_text
        | None => raise (KeyError language)
        end
      else ret prompt_text
  | None => ret prompt_text
  end.

(** Lines 158-167. *)
Definition choose_prefix (a : args.t) : string :=
  if Py.str_truthy (args.prefix a) then args.prefix a
  else if Py.str_truthy (args.padding_text a) then args.padding_text a
  else PREFIX.

Definition prepare_xlnet_input (a : args.t) (_ : model) (_ : tokenizer)
    (prompt_text : string) : M string :=
  let prefix := choose_prefix a in
  ret (String.append prefix prompt_text).

Definition prepare_transfoxl_input (a : args.t) (_ : model) (_ : tokenizer)
    (prompt_text : string) : M string :=
  let prefix := choose_prefix a in
  ret (String.append prefix prompt_text).

(** Lines 170-175. *)
Definition PREPROCESSING_FUNCTIONS
  : gmap string (args.t -> model -> tokenizer -> string -> M string) :=
  list_to_map
    [ ("ctrl", prepare_ctrl_input);
      ("xlm", prepare_xlm_input);
      ("xlnet", prepare_xlnet_input);
      ("transfo-xl", prepare_transfoxl_input) ].

(** ** The locals of [main] that the benchmark loop reads *)

Record run : Type := mkRun {
  run_args : args.t;
  run_model_type : string;        (* args.model_type after line 443 *)
  run_use_cache : bool;           (* args.use_cache after line 411 *)
  run_length : Z;                 (* args.length after line 465 *)
  run_tokenizer : tokenizer;
  run_model : model;
  run_prompt_text : string;
  requires_preprocessing : bool;
}.

(** ** One iteration of the benchmark loop (lines 493-599) *)

(** Lines 499-514. *)
Definition tokenize_prompt (c : run) : M tensor :=
  let a := run_args c in
  if requires_preprocessing c then
    match PREPROCESSING_FUNCTIONS !! run_model_type c with
    | Some prepare_input =>
        let* preprocessed_prompt_text :=
          prepare_input a (run_model c) (run_tokenizer c) (run_prompt_text c) in
        let add_space := String.eqb (class_name (run_model c)) "TransfoXLLMHeadModel" in
        ret (encode_pt (run_tokenizer c) add_space preprocessed_prompt_text)
    | None => raise (TypeError "'NoneType' object is not callable")
    end
  else
    let prefix :=
      if Py.str_truthy (args.prefix a) then args.prefix a else args.padding_text a in
    ret (encode_pt (run_tokenizer c) false (String.append prefix (run_prompt_text c))).

(** Lines 555-570: the displayed text of one returned sequence. *)
Definition total_sequence (c : run) (encoded_prompt0 : list Z)
    (generated_sequence : list Z) : string :=
  let tok := run_tokenizer c in
  let text := tok_decode tok generated_sequence in
  let text := truncate_at_stop_token text (args.stop_token (run_args c)) in
  String.append (run_prompt_text c)
    (Py.str_slice text (Some (Py.str_len (tok_decode tok encoded_prompt0))) None).

(** Lines 517-520. *)
Definition input_ids_of (encoded_prompt : tensor) : option tensor :=
  if size_last encoded_prompt =? 0 then None else Some encoded_prompt.

(** Lines 525-526. *)
Definition reseed (c : run) : M unit :=
  let a := run_args c in
  if args.same_seed a
  then update (set_seed (args.seed a));;; emit (EvSetSeed (args.seed a))
  else ret tt.

(** Lines 529-541: the keyword arguments handed to [model.generate]. *)
Definition generate_kwargs (c : run) (input_ids : option tensor) (max_length : Z) : kw.t :=
  let a := run_args c in
  kw.mk (run_use_cache c) input_ids max_length
        (args.max_new_tokens a) (args.min_new_tokens a)
        (args.temperature a) (args.k a) (args.p a)
        (args.repetition_penalty a) true (args.num_return_sequences a).

(** Lines 574-597: the record of one iteration.  Reading the input
    sequences back (line 579) needs [input_ids]; the division of line 593
    is not guarded. *)
Definition populate_record (c : run) (i : Z) (start_time end_time : float)
    (input_ids : option tensor) (max_length : Z) (output_sequences : tensor)
    (generated_sequences : list string) : result rec.t :=
  let a := run_args c in
  let runtime := PrimFloat.sub end_time start_time in
  result_bind
    (match input_ids with
     | Some t => Ok t
     | None => Raise (AttributeError "'NoneType' object has no attribute 'to'")
     end) (fun input_sequences =>
  let total_tokens := Py.sum (map Py.len output_sequences) in
  result_bind (Py.truediv_int_float total_tokens runtime) (fun tokens_per_second =>
  Ok (rec.mk runtime
             (if i <? args.n_warmup_runs a then true else false)
             (map Py.len input_sequences)
             (map Py.len output_sequences)
             total_tokens
             (Py.len output_sequences)
             max_length
             (args.max_new_tokens a)
             (args.min_new_tokens a)
             tokens_per_second
             (if args.output_sequences a
              then Some (input_sequences, output_sequences, generated_sequences)
              else None)))).

(** Lines 517-599, from the encoded prompt to the record.  The output of
    [generate] is two-dimensional, so the squeeze of lines 550-551 does not
    apply. *)
Definition measure (c : run) (i : Z) (start_time : float)
    (encoded_prompt : tensor) : M rec.t :=
  let input_ids := input_ids_of encoded_prompt in
  let* encoded_prompt0 := lift (Py.getitem encoded_prompt 0) in
  let max_length := run_length c + Py.len encoded_prompt0 in
  reseed c;;;
  let kwargs := generate_kwargs c input_ids max_length in
  emit (EvGenerate kwargs);;;
  let* output_sequences := call (generate (run_model c) kwargs) in
  let generated_sequences := map (total_sequence c encoded_prompt0) output_sequences in
  let* end_time := call_total time_time in
  lift (populate_record c i start_time end_time input_ids max_length
          output_sequences generated_sequences).

Definition iteration (c : run) (i : Z) : M rec.t :=
  let* start_time := call_total time_time in
  let* encoded_prompt := tokenize_prompt c in
  measure c i start_time encoded_prompt.

(** ** The benchmark loop (lines 490-599) *)

Fixpoint for_each (body : Z -> M rec.t) (indices : list Z) (records : list rec.t)
  : M (list rec.t) :=
  match indices with
  | [] => ret records
  | i :: rest =>
      let* record := body i in
      for_each body rest (records ++ [record])%list
  end.

Definition benchmark_loop (c : run) : M (list rec.t) :=
  let a := run_args c in
  for_each (iteration c) (Py.range (args.n_warmup_runs a + args.n_runs a)) [].

(** ** Metrics (lines 601-605) *)

Definition warmup_values (records : list rec.t) : list float :=
  map rec.tokens_per_second (List.filter (fun r => Bool.eqb (rec.warmup r) true) records).

Definition measured_values (records : list rec.t) : list float :=
  map rec.tokens_per_second (List.filter (fun r => Bool.eqb (rec.warmup r) false) records).

Definition populate_metrics (records : list rec.t) : result (gmap string float) :=
  result_bind (Py.statistics_median (warmup_values records)) (fun median_warmup =>
  result_bind (Py.statistics_median (measured_values records)) (fun median_measured =>
  Ok (<["median_warmup_tokens_per_second" := median_warmup]>
      (<["median_tokens_per_second" := median_measured]> ∅)))).

(** ** [main] (lines 311-633) *)

(** Lines 417-424. *)
Definition load_prompt (a : args.t) : M string :=
  match args.preset_prompt a with
  | Some name =>
      if Py.str_truthy name then
        let prompt_file := prompt_file_path name in
        let* content := ask (read_file prompt_file) in
        match content with
        | Some text => ret text
        | None =>
            raise (ValueError (String.append "Prompt file does not exist: " prompt_file))
        end
      else ret (args.prompt a)
  | None => ret (args.prompt a)
  end.

(** Lines 441-465: model and tokenizer. *)
Definition initialize (a : args.t) (dtype : torch_dtype)
  : M (string * tokenizer * model) :=
  let* found := lift (lookup_model_classes (args.model_type a)) in
  let '(model_type, (model_class, tokenizer_class)) := found in
  emit (EvTokenizerFromPretrained tokenizer_class (args.model_name_or_path a));;;
  let* tok :=
    call (tokenizer_from_pretrained tokenizer_class (args.model_name_or_path a)) in
  emit (EvModelFromPretrained model_class (args.model_name_or_path a) dtype
          (args.cache_dir a));;;
  let* m :=
    call (model_from_pretrained model_class (args.model_name_or_path a) dtype
            (args.cache_dir a)) in
  ret (model_type, tok, m).

Definition main (a : args.t) : M (list rec.t) :=
  let dtype := set_torch_dtype (args.torch_dtype a) in
  let use_cache := set_use_cache (args.use_cache a) in
  let* prompt := load_prompt a in
  update (set_seed (args.seed a));;;
  emit (EvSetSeed (args.seed a));;;
  let* loaded := initialize a dtype in
  let '(model_type, tok, m) := loaded in
  let max_seq_length := default 0 (max_position_embeddings m) in
  let length := adjust_length_to_model (args.length a) max_seq_length in
  let* m :=
    (if args.jit a
     then emit EvJitTrace;;; call (jit_trace m tok)
     else ret m) in
  let* prompt_text :=
    (if Py.str_truthy prompt then ret prompt else input "Model prompt >>> ") in
  let requires_preprocessing :=
    bool_decide (is_Some (PREPROCESSING_FUNCTIONS !! model_type)) in
  let c := mkRun a model_type use_cache length tok m prompt_text requires_preprocessing in
  let* records := benchmark_loop c in
  let* metrics := lift (populate_metrics records) in
  emit (EvDumpRecords (args.records_file a) records);;;
  call (dump_records (args.records_file a) records);;;
  emit (EvDumpMetrics (args.metrics_file a) metrics);;;
  call (dump_metrics (args.metrics_file a) metrics);;;
  ret records.

End Script.

(* ===================================================================== *)
(** * The tracing helpers (lines 188-308) *)
(* ===================================================================== *)

(** These functions read more of the model configuration than [main] does.
    An attribute is either absent or an integer.  A tensor made by
    [torch.empty] has no defined content, so it is its shape; a dimension
    below zero is refused by the tensor library. *)

Module PyNum.

(** [a / b] on two [int]s: the exact quotient rounded to nearest even. *)
Definition truediv_int_int (a b : Z) : result float :=
  if b =? 0 then Raise (ZeroDivisionError "division by zero")
  else
    let negate := xorb (a <? 0) (b <? 0) in
    match a with
    | 0 => Ok (if negate then PrimFloat.neg_zero else PrimFloat.zero)
    | _ =>
        let f := SF2Prim (SFdiv prec emax
                            (S754_finite (a <? 0) (Z.to_pos (Z.abs a)) 0)
                            (S754_finite (b <? 0) (Z.to_pos (Z.abs b)) 0)) in
        if PrimFloat.is_infinity f
        then Raise (OverflowError "integer division result too large for a float")
        else Ok f
    end.

(** [int(x)] on a [float]: truncation toward zero. *)
Definition int_of_float (x : float) : result Z :=
  match Prim2SF x with
  | S754_nan => Raise (ValueError "cannot convert float NaN to integer")
  | S754_infinity _ => Raise (OverflowError "cannot convert float infinity to integer")
  | S754_zero _ => Ok 0
  | S754_finite sign m e =>
      let magnitude :=
        if 0 <=? e then Z.pos m * 2 ^ e else Z.pos m / 2 ^ (- e) in
      Ok (if sign then - magnitude else magnitude)
  end.

End PyNum.

Module config.
Record t : Type := mk {
  hidden_size : option Z;
  n_embed : option Z;
  n_embd : option Z;
  num_attention_heads : option Z;
  n_head : option Z;
  n_layer : option Z;
  num_hidden_layers : option Z;
  model_type : string;
  use_cache : bool;
}.
End config.

(** Lines 188-214. *)
Definition sparse_model_config (model_config : config.t) : result (Z * Z * Z) :=
  let embedding_size :=
    match config.hidden_size model_config with
    | Some v => Some v
    | None =>
        match config.n_embed model_config with
        | Some v => Some v
        | None => config.n_embd model_config
        end
    end in
  let num_head :=
    match config.num_attention_heads model_config with
    | Some v => Some v
    | None => config.n_head model_config
    end in
  match embedding_size, num_head with
  | Some embedding_size, Some num_head =>
      if num_head =? 0 then Raise (ValueError "Check the model config")
      else
        result_bind (PyNum.truediv_int_int embedding_size num_head) (fun quotient =>
        result_bind (PyNum.int_of_float quotient) (fun num_embedding_size_per_head =>
        match config.n_layer model_config with
        | Some num_layer => Ok (num_layer, num_head, num_embedding_size_per_head)
        | None =>
            match config.num_hidden_layers model_config with
            | Some num_layer => Ok (num_layer, num_head, num_embedding_size_per_head)
            | None =>
                Raise (ValueError
                  "Number of hidden layers couldn't be determined from the model config")
            end
        end))
  | _, _ => Raise (ValueError "Check the model config")
  end.

(** The shape of a tensor. *)
Definition shape : Type := list Z.

(** [torch.empty] called with the sizes. *)
Definition torch_empty (sizes : shape) : result shape :=
  if forallb (fun d => 0 <=? d) sizes then Ok sizes
  else Raise (CollaboratorError "Trying to create tensor with negative dimension").

(** The number of elements of a tensor of a given shape. *)
Definition numel (sizes : shape) : Z := fold_right Z.mul 1 sizes.

(** [tuple(f() for _ in range(n))] for an [f] that may raise. *)
Fixpoint collect {A} (indices : list Z) (f : result A) : result (list A) :=
  match indices with
  | [] => Ok []
  | _ :: rest =>
      result_bind f (fun x =>
      result_bind (collect rest f) (fun xs => Ok (x :: xs)))
  end.

(** Lines 217-243: one (key, value) pair of empty tensors per layer. *)
Definition generate_past_key_values (model_config : config.t) (batch_size seq_len : Z)
  : result (list (shape * shape)) :=
  result_bind (sparse_model_config model_config) (fun '(num_block_layers, num_attention_heads, num_embedding_size_per_head) =>
  if String.eqb (config.model_type model_config) "bloom" then
    collect (Py.range num_block_layers)
      (result_bind (torch_empty [num_attention_heads * batch_size;
                                 num_embedding_size_per_head; seq_len]) (fun key =>
       result_bind (torch_empty [num_attention_heads * batch_size;
                                 seq_len; num_embedding_size_per_head]) (fun value =>
       Ok (key, value))))
  else
    collect (Py.range num_block_layers)
      (result_bind (torch_empty [batch_size; num_attention_heads;
                                 seq_len; num_embedding_size_per_head]) (fun key =>
       result_bind (torch_empty [batch_size; num_attention_heads;
                                 seq_len; num_embedding_size_per_head]) (fun value =>
       Ok (key, value))))).

(** The values found in the keyword dictionaries of the tracing path. *)
Inductive pyval : Type :=
| VNone
| VBool (b : bool)
| VInt (n : Z)
| VTensor (t : tensor)
| VPast (cache : list (shape * shape)).

(** [v is None or isinstance(v, bool)]. *)
Definition none_or_bool (v : pyval) : bool :=
  match v with
  | VNone | VBool _ => true
  | _ => false
  end.

(** Lines 246-261.  [batch_encode_plus] is the tokenizer's answer for the
    given texts. *)
Definition prepare_jit_inputs (batch_encode_plus : list string -> gmap string pyval)
    (inputs : list string) (model_config : config.t) : result (gmap string pyval) :=
  let batch_size := Py.len inputs in
  let dummy_input := batch_encode_plus inputs in
  result_bind
    (if config.use_cache model_config
     then result_bind (generate_past_key_values model_config batch_size 1) (fun past =>
          Ok (<["past_key_values" := VPast past]> dummy_input))
     else Ok dummy_input) (fun dummy_input =>
  match dummy_input !! "attention_mask" with
  | Some (VTensor attention_mask) =>
      Ok (<["attention_mask" := VTensor (map (cons 0) attention_mask)]> dummy_input)
  | Some _ => Raise (AttributeError "object has no attribute 'shape'")
  | None => Raise (KeyError "attention_mask")
  end).

(** The structured output rebuilt by the wrapper (lines 281-287). *)
Record CausalLMOutputWithPast : Type := {
  out_loss : pyval;
  out_logits : pyval;
  out_past_key_values : pyval;
  out_hidden_states : pyval;
  out_attentions : pyval;
}.

(** Lines 271-288: [_ModelFallbackWrapper.__call__].  [optimized] is the
    traced model, [default_config] the configuration of the wrapped one. *)
Definition fallback_call (optimized : gmap string pyval -> result (list pyval))
    (default_config : config.t) (kwargs : gmap string pyval)
  : result CausalLMOutputWithPast :=
  match kwargs !! "past_key_values" with
  | None => Raise (KeyError "past_key_values")
  | Some past =>
      result_bind
        (if (match past with VNone => true | _ => false end
             && config.use_cache default_config)%bool
         then
           match kwargs !! "input_ids" with
           | None => Raise (KeyError "input_ids")
           | Some (VTensor input_ids) =>
               result_bind
                 (generate_past_key_values default_config (Py.len input_ids) 0)
                 (fun cache => Ok (<["past_key_values" := VPast cache]> kwargs))
           | Some _ => Raise (AttributeError "object has no attribute 'shape'")
           end
         else Ok kwargs) (fun kwargs =>
      let kwargs := delete "position_ids" kwargs in
      let kwargs := filter (fun kv => none_or_bool (snd kv) = false) kwargs in
      result_bind (optimized kwargs) (fun outputs =>
      result_bind (Py.getitem outputs 0) (fun lm_logits =>
      result_bind (Py.getitem outputs 1) (fun past_key_values =>
      Ok {| out_loss := VNone;
            out_logits := lm_logits;
            out_past_key_values := past_key_values;
            out_hidden_states := VNone;
            out_attentions := VNone |}))))
  end.

(* ===================================================================== *)
(** * The median in the words of the specification *)
(* ===================================================================== *)

Definition ascending (l : list float) : Prop :=
  Sorted (fun x y => PrimFloat.leb x y = true) l.

Definition no_nan (l : list float) : Prop :=
  Forall (fun x => PrimFloat.is_nan x = false) l.

(** The statistical median of [data]: the middle value of the data put in
    ascending order, or the mean of the two middle values when their number
    is even. *)
Definition is_statistical_median (data : list float) (m : float) : Prop :=
  exists ordered,
    Permutation ordered data /\
    ascending ordered /\
    let n := List.length ordered in
    if Nat.odd n
    then nth_error ordered (n / 2)%nat = Some m
    else exists lo hi,
           nth_error ordered (n / 2 - 1)%nat = Some lo /\
           nth_error ordered (n / 2)%nat = Some hi /\
           m = PrimFloat.div (PrimFloat.add lo hi) 2%float.

(* ===================================================================== *)
(** * A small concrete world, to run the script inside the logic *)
(* ===================================================================== *)

Module Fixture.

(** The world is the phase of a clock that reads 0 and 2 in turn. *)
Definition World : Type := bool.

Definition clock (w : World) : float * World :=
  if w then (2%float, false) else (0%float, true).

(** A tokenizer with one token per character. *)
Definition char_tokenizer : tokenizer :=
  {| tok_encode := fun _ text =>
       map (fun ch => Z.of_nat (nat_of_ascii ch)) (list_ascii_of_string text);
     tok_decode := fun ids =>
       string_of_list_ascii (map (fun id => ascii_of_nat (Z.to_nat id)) ids);
     control_codes := [] |}.

Definition small_model : model :=
  {| class_name := "GPT2LMHeadModel";
     max_position_embeddings := Some 1024;
     use_lang_emb := false;
     lang2id := None |}.

(** Generation appends two tokens to each input row, or starts from one
    token when there is no input. *)
Definition continue_rows (kwargs : kw.t) : tensor :=
  match kw.input_ids kwargs with
  | Some rows => map (fun row => (row ++ [33; 33])%list) rows
  | None => [[33]]
  end.

#[global] Instance services : Services World :=
  {| time_time := clock;
     set_seed := fun _ w => w;
     prompt_file_path := fun name => String.append "prompts/" (String.append name ".txt");
     read_file := fun _ _ => None;
     tokenizer_from_pretrained := fun _ _ w => (Ok char_tokenizer, w);
     model_from_pretrained := fun _ _ _ _ w => (Ok small_model, w);
     jit_trace := fun m _ w => (Ok m, w);
     set_lang_id := fun _ w => w;
     generate := fun _ kwargs w => (Ok (continue_rows kwargs), w);
     dump_records := fun _ _ w => (Ok tt, w);
     dump_metrics := fun _ _ w => (Ok tt, w) |}.

Definition make_args (model_type prompt : string) (n_warmup_runs n_runs : Z) : args.t :=
  args.mk model_type "gpt2" prompt 4096 None 1%float 1%float 0 0.5%float
          "" "" "" 42 1 false "float32" "True" "/data" n_warmup_runs n_runs
          false false "records.json" "metrics.json" None None None.

Definition base_args : args.t := make_args "GPT2" "Hi" 1 2.

(** The locals of [main] at the loop, for the model type ["gpt2"]. *)
Definition run_of (a : args.t) (prompt_text : string) : run :=
  mkRun a "gpt2" (set_use_cache (args.use_cache a))
        (adjust_length_to_model (args.length a) 1024)
        char_tokenizer small_model prompt_text false.

(** A record with a given flag and throughput, and sample record lists. *)
Definition sample_record (warmup : bool) (tokens_per_second : float) : rec.t :=
  rec.mk 2%float warmup [2] [4] 4 1 1026 None None tokens_per_second None.

Definition sample_records : list rec.t :=
  [ sample_record true 3%float; sample_record true 1%float;
    sample_record false 10%float; sample_record false 30%float;
    sample_record false 20%float ].

Definition measured_only : list rec.t :=
  [ sample_record false 10%float; sample_record false 30%float ].

Definition start : state World := mkState false [] [].

(** The same collaborators with a clock that stands still. *)
Definition frozen_services : Services unit :=
  {| time_time := fun w => (5%float, w);
     set_seed := fun _ w => w;
     prompt_file_path := fun name => String.append "prompts/" (String.append name ".txt");
     read_file := fun _ _ => None;
     tokenizer_from_pretrained := fun _ _ w => (Ok char_tokenizer, w);
     model_from_pretrained := fun _ _ _ _ w => (Ok small_model, w);
     jit_trace := fun m _ w => (Ok m, w);
     set_lang_id := fun _ w => w;
     generate := fun _ kwargs w => (Ok (continue_rows kwargs), w);
     dump_records := fun _ _ w => (Ok tt, w);
     dump_metrics := fun _ _ w => (Ok tt, w) |}.

Definition frozen : state unit := mkState tt [] [].

(** The same collaborators with a clock that reads out a list of readings,
    and 0 once the list is used up. *)
Definition next_reading (w : list float) : float * list float :=
  match w with
  | [] => (0%float, [])
  | t :: rest => (t, rest)
  end.

Definition stalling_services : Services (list float) :=
  {| time_time := next_reading;
     set_seed := fun _ w => w;
     prompt_file_path := fun name => String.append "prompts/" (String.append name ".txt");
     read_file := fun _ _ => None;
     tokenizer_from_pretrained := fun _ _ w => (Ok char_tokenizer, w);
     model_from_pretrained := fun _ _ _ _ w => (Ok small_model, w);
     jit_trace := fun m _ w => (Ok m, w);
     set_lang_id := fun _ w => w;
     generate := fun _ kwargs w => (Ok (continue_rows kwargs), w);
     dump_records := fun _ _ w => (Ok tt, w);
     dump_metrics := fun _ _ w => (Ok tt, w) |}.

(** The clock advances during the first iteration only. *)
Definition stalling : state (list float) := mkState [0%float; 2%float] [] [].

(** The collaborators of [services] on a disk that fills up while the
    records are written: the metrics file cannot be written. *)
Definition full_disk_services : Services World :=
  {| time_time := clock;
     set_seed := fun _ w => w;
     prompt_file_path := fun name => String.append "prompts/" (String.append name ".txt");
     read_file := fun _ _ => None;
     tokenizer_from_pretrained := fun _ _ w => (Ok char_tokenizer, w);
     model_from_pretrained := fun _ _ _ _ w => (Ok small_model, w);
     jit_trace := fun m _ w => (Ok m, w);
     set_lang_id := fun _ w => w;
     generate := fun _ kwargs w => (Ok (continue_rows kwargs), w);
     dump_records := fun _ _ w => (Ok tt, w);
     dump_metrics := fun _ _ w =>
       (Raise (OSError "[Errno 28] No space left on device"), w) |}.

End Fixture.


(* ===================================================================== *)
(** * Predicates on traces *)
(* ===================================================================== *)

Section TracePredicates.
Context {World : Type}.

(** [emits c P]: whatever [c] returns, it only appends events, and every
    event it appends satisfies [P]. *)
Definition emits {A} (c : M World A) (P : event -> Prop) : Prop :=
  forall s r s',
    c s = (r, s') ->
    exists events, trace s' = (trace s ++ events)%list /\ Forall P events.

End TracePredicates.

(** The events of the benchmark loop for a given command line and cache
    flag: calls of [generate] with the flags of the command line, reseeding
    under [--same_seed], and the language choice of XLM. *)
Definition loop_event (a : args.t) (use_cache : bool) (e : event) : Prop :=
  match e with
  | EvGenerate kwargs =>
      kw.use_cache kwargs = use_cache /\
      kw.do_sample kwargs = true /\
      kw.max_new_tokens kwargs = args.max_new_tokens a /\
      kw.min_new_tokens kwargs = args.min_new_tokens a /\
      kw.temperature kwargs = args.temperature a /\
      kw.top_k kwargs = args.k a /\
      kw.top_p kwargs = args.p a /\
      kw.repetition_penalty kwargs = args.repetition_penalty a /\
      kw.num_return_sequences kwargs = args.num_return_sequences a /\
      match kw.input_ids kwargs with
      | Some rows => exists row, rows = [row] /\ row <> []
      | None => True
      end
  | EvSetSeed seed => args.same_seed a = true /\ seed = args.seed a
  | EvSetLangId _ => True
  | _ => False
  end.

Definition is_generate_event (e : event) : bool :=
  match e with EvGenerate _ => true | _ => false end.

Definition is_dump_event (e : event) : bool :=
  match e with EvDumpRecords _ _ | EvDumpMetrics _ _ => true | _ => false end.

(* ===================================================================== *)
(** * More sample inputs *)
(* ===================================================================== *)

Module Samples.

(** A command line with a stop token and another with a preset prompt. *)
Definition stop_args : args.t :=
  args.mk "GPT2" "gpt2" "Hi" 4096 (Some "!") 1%float 1%float 0 0.5%float
          "" "" "" 42 1 false "float32" "True" "/data" 1 2
          false false "records.json" "metrics.json" None None None.

Definition preset_args : args.t :=
  args.mk "GPT2" "gpt2" "Hi" 4096 None 1%float 1%float 0 0.5%float
          "" "" "" 42 1 false "float32" "True" "/data" 1 2
          false false "records.json" "metrics.json" None None (Some "short").

Definition stop_run : run :=
  mkRun stop_args "gpt2" true 1024 Fixture.char_tokenizer Fixture.small_model "Hi" false.

(** An XLM model with two languages. *)
Definition xlm_model : model :=
  {| class_name := "XLMWithLMHeadModel";
     max_position_embeddings := Some 512;
     use_lang_emb := true;
     lang2id := Some (list_to_map [("en", 0); ("fr", 1)]) |}.

(** A CTRL run on an empty prompt. *)
Definition ctrl_tokenizer : tokenizer :=
  {| tok_encode := tok_encode Fixture.char_tokenizer;
     tok_decode := tok_decode Fixture.char_tokenizer;
     control_codes := [1; 2] |}.

Definition ctrl_run : run :=
  mkRun (Fixture.make_args "ctrl" "" 1 2) "ctrl" true 256
        ctrl_tokenizer Fixture.small_model "" true.

(** An XLNet run with [--padding_text]. *)
Definition xlnet_run : run :=
  mkRun (args.mk "xlnet" "xlnet" "Hi" 20 None 1%float 1%float 0 0.5%float
                 "" "Once. " "" 42 1 false "float32" "True" "/data" 1 1
                 false false "records.json" "metrics.json" None None None)
        "xlnet" true 20 Fixture.char_tokenizer Fixture.small_model "Hi" true.

(** Two configurations, one of them Bloom. *)
Definition bloom_config : config.t :=
  config.mk (Some 1024) None None None (Some 16) (Some 2) None "bloom" true.

Definition gpt2_config : config.t :=
  config.mk None None (Some 768) None (Some 12) (Some 2) None "gpt2" false.

(** What a tokenizer answers for a batch of one text of two tokens. *)
Definition encoded_batch (_ : list string) : gmap string pyval :=
  <["input_ids" := VTensor [[5; 6]]]> (<["attention_mask" := VTensor [[1; 1]]]> ∅).

End Samples.

(* ===================================================================== *)
(** * Properties of the pure helpers *)
(* ===================================================================== *)

Section StringFacts.

Lemma substring_all (s : string) : String.substring 0 (String.length s) s = s.
Proof.
  induction s as [|ch s IH]; simpl; [reflexivity | now rewrite IH].
Qed.

Lemma substring_clamp (s : string) (n : nat) :
  String.substring 0 (Nat.min n (String.length s)) s = String.substring 0 n s.
Proof.
  revert n; induction s as [|ch s IH]; intros [|n]; simpl; try reflexivity.
  now rewrite IH.
Qed.

Lemma str_slice_whole (text : string) : Py.str_slice text None None = text.
Proof.
  unfold Py.str_slice, Py.slice_bound, Py.str_len.
  rewrite Z.sub_0_r, Nat2Z.id. apply substring_all.
Qed.

Lemma str_slice_prefix (text : string) (n : nat) :
  Py.str_slice text None (Some (Z.of_nat n)) = String.substring 0 n text.
Proof.
  unfold Py.str_slice, Py.slice_bound, Py.str_len.
  destruct (Z.ltb_spec (Z.of_nat n) 0) as [Hneg|_]; [lia|].
  rewrite Z.sub_0_r, <- Nat2Z.inj_min, Nat2Z.id. apply substring_clamp.
Qed.

Lemma str_slice_drop_last (text : string) :
  Py.str_slice text None (Some (-1)) =
  String.substring 0 (String.length text - 1) text.
Proof.
  unfold Py.str_slice, Py.slice_bound, Py.str_len.
  change (-1 <? 0) with true. cbv iota. rewrite Z.sub_0_r.
  replace (Z.to_nat (Z.max (Z.of_nat (String.length text) + -1) 0))
    with (String.length text - 1)%nat by lia.
  reflexivity.
Qed.

Lemma ascii_lower_idempotent (ch : ascii) :
  Py.ascii_lower (Py.ascii_lower ch) = Py.ascii_lower ch.
Proof.
  destruct ch as [[] [] [] [] [] [] [] []]; vm_compute; reflexivity.
Qed.

Lemma str_lower_idempotent (s : string) :
  Py.str_lower (Py.str_lower s) = Py.str_lower s.
Proof.
  induction s as [|ch s IH]; simpl; [reflexivity|].
  now rewrite ascii_lower_idempotent, IH.
Qed.

End StringFacts.

(** Every key of the table is already in lower case. *)
Lemma MODEL_CLASSES_keys_lower (key : string) (classes : model_class * tokenizer_class) :
  MODEL_CLASSES !! key = Some classes -> Py.str_lower key = key.
Proof.
  intros Hkey. apply elem_of_list_to_map_2 in Hkey.
  unfold MODEL_CLASSES_items in Hkey.
  repeat (apply elem_of_cons in Hkey; destruct Hkey as [Hkey|Hkey];
          [injection Hkey as -> _; reflexivity|]).
  now apply elem_of_nil in Hkey.
Qed.

(** What line 563 does in each case. *)
Lemma truncate_without_stop_token (text : string) :
  truncate_at_stop_token text None = text /\
  truncate_at_stop_token text (Some "") = text.
Proof.
  split; unfold truncate_at_stop_token; simpl; apply str_slice_whole.
Qed.

Lemma truncate_stop_token_present (text tok : string) (n : nat) :
  Py.str_truthy tok = true ->
  String.index 0 tok text = Some n ->
  truncate_at_stop_token text (Some tok) = String.substring 0 n text.
Proof.
  intros Htok Hidx. unfold truncate_at_stop_token, Py.str_find.
  rewrite Htok, Hidx. apply str_slice_prefix.
Qed.

Lemma truncate_stop_token_absent (text tok : string) :
  Py.str_truthy tok = true ->
  String.index 0 tok text = None ->
  truncate_at_stop_token text (Some tok) =
  String.substring 0 (String.length text - 1) text.
Proof.
  intros Htok Hidx. unfold truncate_at_stop_token, Py.str_find.
  rewrite Htok, Hidx. apply str_slice_drop_last.
Qed.

(** C4: with a stop token that does not occur in the decoded text, line 563
    slices with the -1 that [find] returns, so the text loses its last
    character instead of staying unchanged. *)
Theorem C4_absent_stop_token_drops_last_character :
  Py.str_find "Hello world" "<END>" = -1 /\
  truncate_at_stop_token "Hello world" (Some "<END>") = "Hello worl" /\
  truncate_at_stop_token "Hello world" (Some "<END>") <> "Hello world".
Proof.
  repeat split; try reflexivity. vm_compute. discriminate.
Qed.

(** C5: the three sample calls of [adjust_length_to_model]. *)
Theorem C5_adjust_length_examples :
  adjust_length_to_model (-1) 0 = MAX_LENGTH /\
  MAX_LENGTH = 10000 /\
  adjust_length_to_model 50 20 = 20 /\
  adjust_length_to_model 10 20 = 10.
Proof.
  repeat split; reflexivity.
Qed.

(** C6: the cache flag is false exactly for the string "False", and true
    for every other string. *)
Theorem C6_use_cache_flag (use_cache : string) :
  (set_use_cache use_cache = false <-> use_cache = "False") /\
  (set_use_cache use_cache = true <-> use_cache <> "False").
Proof.
  unfold set_use_cache.
  destruct (String.eqb_spec use_cache "False") as [Heq|Hne]; split; split;
    intros H; try congruence; try discriminate; try reflexivity.
Qed.

(** C10: the lookup sees only the lowered model type, so every spelling
    whose lower case is a key resolves to the classes of that key, as the
    key itself does. *)
Theorem C10_lookup_is_case_insensitive (model_type : string) :
  lookup_model_classes model_type = lookup_model_classes (Py.str_lower model_type) /\
  forall key classes,
    MODEL_CLASSES !! key = Some classes ->
    Py.str_lower model_type = key ->
    lookup_model_classes model_type = Ok (key, classes) /\
    lookup_model_classes key = Ok (key, classes).
Proof.
  split.
  - unfold lookup_model_classes. now rewrite str_lower_idempotent.
  - intros key classes Hkey Hlower.
    assert (Hown : Py.str_lower key = key) by (eapply MODEL_CLASSES_keys_lower; eauto).
    unfold lookup_model_classes. rewrite Hlower, Hown, Hkey. split; reflexivity.
Qed.

Lemma C10_lookup_is_case_insensitive_witness :
  lookup_model_classes "GPT2" = Ok ("gpt2", (GPT2LMHeadModel, GPT2Tokenizer)) /\
  lookup_model_classes "gpt2" = Ok ("gpt2", (GPT2LMHeadModel, GPT2Tokenizer)) /\
  lookup_model_classes "Llama" = lookup_model_classes "llama".
Proof.
  destruct (C10_lookup_is_case_insensitive "GPT2") as [_ Hgpt2].
  destruct (C10_lookup_is_case_insensitive "Llama") as [Hllama _].
  destruct (Hgpt2 "gpt2" (GPT2LMHeadModel, GPT2Tokenizer)) as [Hupper Hlower];
    try reflexivity.
  split; [exact Hupper|]. split; [exact Hlower | exact Hllama].
Defined.

(* ===================================================================== *)
(** * Properties of the benchmark loop *)
(* ===================================================================== *)

Section MonadFacts.
Context {World : Type}.

Lemma bind_ok {A B} (c : M World A) (k : A -> M World B) s b s' :
  bind c k s = (Ok b, s') ->
  exists a s1, c s = (Ok a, s1) /\ k a s1 = (Ok b, s').
Proof.
  unfold bind. destruct (c s) as [[a|e] s1]; intros H.
  - exists a, s1. split; [reflexivity | exact H].
  - discriminate.
Qed.

Lemma bind_step {A B} (c : M World A) (k : A -> M World B) s a s1 :
  c s = (Ok a, s1) -> bind c k s = k a s1.
Proof. unfold bind. now intros ->. Qed.

Lemma bind_raise {A B} (c : M World A) (k : A -> M World B) s e s1 :
  c s = (Raise e, s1) -> bind c k s = (Raise e, s1).
Proof. unfold bind. now intros ->. Qed.

Lemma lift_ok {A} (r : result A) (s : state World) a s' :
  lift r s = (Ok a, s') -> r = Ok a /\ s' = s.
Proof. unfold lift. intros H. injection H as -> ->. split; reflexivity. Qed.

End MonadFacts.

(** Inverts a successful run of a sequence of binds, one step at a time. *)
Ltac invert_bind H :=
  let a := fresh "a" in
  let s1 := fresh "s" in
  let Hc := fresh "Hc" in
  apply bind_ok in H; destruct H as (a & s1 & Hc & H).

Section RangeFacts.

Lemma map_constant {A B} (f : A -> B) (b : B) (l : list A) :
  (forall x, In x l -> f x = b) -> map f l = repeat b (List.length l).
Proof.
  induction l as [|x l IH]; intros Hall; simpl; [reflexivity|].
  rewrite Hall by (left; reflexivity).
  rewrite IH by (intros y Hy; apply Hall; right; exact Hy). reflexivity.
Qed.

Lemma range_length (n : Z) : 0 <= n -> Py.len (Py.range n) = n.
Proof.
  intros Hn. unfold Py.len, Py.range.
  rewrite length_map, length_seq. lia.
Qed.

Lemma range_split (w r : Z) :
  0 <= w -> 0 <= r ->
  Py.range (w + r) =
  (map Z.of_nat (seq 0 (Z.to_nat w)) ++ map Z.of_nat (seq (Z.to_nat w) (Z.to_nat r)))%list.
Proof.
  intros Hw Hr. unfold Py.range.
  rewrite Z2Nat.inj_add by assumption.
  rewrite seq_app, map_app. reflexivity.
Qed.

(** The flag of line 584 over the indices of the loop. *)
Lemma warmup_flags_of_range (w r : Z) :
  0 <= w -> 0 <= r ->
  map (fun i => if i <? w then true else false) (Py.range (w + r)) =
  (repeat true (Z.to_nat w) ++ repeat false (Z.to_nat r))%list.
Proof.
  intros Hw Hr. rewrite range_split, map_app by assumption. f_equal.
  - rewrite (map_constant _ true).
    + now rewrite length_map, length_seq.
    + intros i Hi. apply in_map_iff in Hi. destruct Hi as (n & <- & Hn).
      apply in_seq in Hn. destruct (Z.ltb_spec (Z.of_nat n) w); [reflexivity | lia].
  - rewrite (map_constant _ false).
    + now rewrite length_map, length_seq.
    + intros i Hi. apply in_map_iff in Hi. destruct Hi as (n & <- & Hn).
      apply in_seq in Hn. destruct (Z.ltb_spec (Z.of_nat n) w); [lia | reflexivity].
Qed.

End RangeFacts.

Section LoopFacts.
Context {World : Type} {SV : Services World}.

(** A successful loop appends one record per index, each the result of a
    successful run of the body. *)
Lemma for_each_ok (body : Z -> M World rec.t) (indices : list Z) :
  forall records s out s',
    for_each body indices records s = (Ok out, s') ->
    exists fresh,
      out = (records ++ fresh)%list /\
      Forall2 (fun i r => exists s1 s2, body i s1 = (Ok r, s2)) indices fresh.
Proof.
  induction indices as [|i rest IH]; intros records s out s' Hrun; simpl in Hrun.
  - injection Hrun as <- <-. exists []. split; [now rewrite app_nil_r | constructor].
  - invert_bind Hrun.
    apply IH in Hrun. destruct Hrun as (fresh & -> & Hall).
    exists (a :: fresh). split.
    + now rewrite <- app_assoc.
    + constructor; [eauto | exact Hall].
Qed.

(** The loop completes when the body preserves an invariant under which it
    succeeds. *)
Lemma for_each_total (body : Z -> M World rec.t) (Inv : state World -> Prop)
    (indices : list Z) :
  (forall i s0, In i indices -> Inv s0 ->
     exists r s1, body i s0 = (Ok r, s1) /\ Inv s1) ->
  forall records s, Inv s ->
    exists out s', for_each body indices records s = (Ok out, s') /\ Inv s'.
Proof.
  induction indices as [|i rest IH]; intros Hbody records s Hs; simpl.
  - exists records, s. split; [reflexivity | exact Hs].
  - destruct (Hbody i s (or_introl eq_refl) Hs) as (r & s1 & Hr & Hs1).
    rewrite (bind_step _ _ _ _ _ Hr).
    apply IH; [|exact Hs1].
    intros j s0 Hj. apply Hbody. right. exact Hj.
Qed.

(** What a finished record says about its iteration. *)
Lemma populate_record_ok (c : run) (i : Z) (start_time end_time : float)
    (input_ids : option tensor) (max_length : Z) (output_sequences : tensor)
    (generated_sequences : list string) (r : rec.t) :
  populate_record c i start_time end_time input_ids max_length
    output_sequences generated_sequences = Ok r ->
  rec.warmup r = (if i <? args.n_warmup_runs (run_args c) then true else false) /\
  rec.latency r = PrimFloat.sub end_time start_time /\
  rec.total_tokens r = Py.sum (map Py.len output_sequences) /\
  Py.truediv_int_float (rec.total_tokens r) (rec.latency r) = Ok (rec.tokens_per_second r) /\
  (exists t, input_ids = Some t).
Proof.
  unfold populate_record. intros H.
  destruct input_ids as [t|]; simpl in H; [|discriminate].
  destruct (Py.truediv_int_float _ _) as [q|e] eqn:Hdiv; simpl in H; [|discriminate].
  injection H as <-. simpl. repeat split; try assumption. now exists t.
Qed.

Lemma measure_ok (c : run) (i : Z) (start_time : float) (encoded_prompt : tensor)
    (s : state World) (r : rec.t) (s' : state World) :
  measure c i start_time encoded_prompt s = (Ok r, s') ->
  exists end_time max_length output_sequences generated_sequences,
    populate_record c i start_time end_time (input_ids_of encoded_prompt)
      max_length output_sequences generated_sequences = Ok r.
Proof.
  unfold measure. intros H.
  do 5 invert_bind H.
  apply lift_ok in H. destruct H as [H _]. eauto.
Qed.

Lemma iteration_ok (c : run) (i : Z) (s : state World) (r : rec.t) (s' : state World) :
  iteration c i s = (Ok r, s') ->
  rec.warmup r = (if i <? args.n_warmup_runs (run_args c) then true else false) /\
  Py.truediv_int_float (rec.total_tokens r) (rec.latency r) = Ok (rec.tokens_per_second r).
Proof.
  unfold iteration. intros H. do 2 invert_bind H.
  apply measure_ok in H. destruct H as (t1 & ml & out & gen & H).
  apply populate_record_ok in H. tauto.
Qed.

End LoopFacts.

Section LoopClaims.
Context {World : Type} {SV : Services World}.

Lemma loop_records (c : run) (s : state World) (records : list rec.t) (s' : state World) :
  benchmark_loop c s = (Ok records, s') ->
  Forall2 (fun i r => exists s1 s2, iteration c i s1 = (Ok r, s2))
    (Py.range (args.n_warmup_runs (run_args c) + args.n_runs (run_args c))) records.
Proof.
  unfold benchmark_loop. intros Hrun.
  apply for_each_ok in Hrun. destruct Hrun as (fresh & -> & Hall). exact Hall.
Qed.

Lemma loop_record_in (c : run) (s : state World) (records : list rec.t) (s' : state World) r :
  benchmark_loop c s = (Ok records, s') -> In r records ->
  exists i s1 s2, iteration c i s1 = (Ok r, s2).
Proof.
  intros Hrun Hin. apply loop_records in Hrun.
  induction Hrun as [|i r' indices rs Hhead _ IH]; [contradiction|].
  destruct Hin as [->|Hin]; [|auto].
  destruct Hhead as (s1 & s2 & Hr). eauto.
Qed.

(** C1: with W warm-up runs and R measured runs, both non-negative, a loop
    that completes returns W+R records, the first W flagged warm-up and the
    other R not; and the loop completes whenever every iteration does. *)
Theorem C1_record_count_and_warmup_flags (c : run) (s : state World) :
  0 <= args.n_warmup_runs (run_args c) ->
  0 <= args.n_runs (run_args c) ->
  (forall records s',
     benchmark_loop c s = (Ok records, s') ->
     Py.len records = args.n_warmup_runs (run_args c) + args.n_runs (run_args c) /\
     map rec.warmup records =
       (repeat true (Z.to_nat (args.n_warmup_runs (run_args c))) ++
        repeat false (Z.to_nat (args.n_runs (run_args c))))%list) /\
  (forall Inv : state World -> Prop,
     Inv s ->
     (forall i s0, Inv s0 -> exists r s1, iteration c i s0 = (Ok r, s1) /\ Inv s1) ->
     exists records s', benchmark_loop c s = (Ok records, s')).
Proof.
  intros HW HR. split.
  - intros records s' Hrun. apply loop_records in Hrun.
    assert (Hflags : map rec.warmup records =
              map (fun i => if i <? args.n_warmup_runs (run_args c) then true else false)
                  (Py.range (args.n_warmup_runs (run_args c) + args.n_runs (run_args c)))).
    { induction Hrun as [|i r indices rs Hhead _ IH]; simpl; [reflexivity|].
      destruct Hhead as (s1 & s2 & Hr). apply iteration_ok in Hr.
      destruct Hr as [-> _]. now rewrite IH. }
    split.
    + apply Forall2_length in Hrun. unfold Py.len. rewrite <- Hrun.
      apply range_length. lia.
    + rewrite Hflags. now apply warmup_flags_of_range.
  - intros Inv Hs Hbody. unfold benchmark_loop.
    destruct (for_each_total (iteration c) Inv
                (Py.range (args.n_warmup_runs (run_args c) + args.n_runs (run_args c)))
                (fun i s0 _ => Hbody i s0) [] s Hs)
      as (out & s' & Hout & _).
    eauto.
Qed.

(** C2: every record of a completed loop has a non-zero latency and carries
    the quotient of its total token count by its latency; a zero latency
    makes line 593 raise, so no record is built. *)
Theorem C2_tokens_per_second_is_quotient (c : run) :
  (forall s records s' r,
     benchmark_loop c s = (Ok records, s') -> In r records ->
     PrimFloat.eqb (rec.latency r) PrimFloat.zero = false /\
     exists n, Py.float_of_int (rec.total_tokens r) = Ok n /\
               rec.tokens_per_second r = PrimFloat.div n (rec.latency r)) /\
  (forall i start_time end_time ids max_length output_sequences generated n,
     PrimFloat.eqb (PrimFloat.sub end_time start_time) PrimFloat.zero = true ->
     Py.float_of_int (Py.sum (map Py.len output_sequences)) = Ok n ->
     populate_record c i start_time end_time (Some ids) max_length
       output_sequences generated = Raise (ZeroDivisionError "float division by zero")).
Proof.
  split.
  - intros s records s' r Hrun Hin.
    destruct (loop_record_in _ _ _ _ _ Hrun Hin) as (i & s1 & s2 & Hr).
    apply iteration_ok in Hr. destruct Hr as [_ Hdiv].
    unfold Py.truediv_int_float in Hdiv.
    destruct (Py.float_of_int (rec.total_tokens r)) as [n|e]; simpl in Hdiv; [|discriminate].
    destruct (PrimFloat.eqb (rec.latency r) PrimFloat.zero); [discriminate|].
    injection Hdiv as Hq. split; [reflexivity|]. exists n. split; [reflexivity | now symmetry].
  - intros i t0 t1 ids ml out gen n Hzero Hconv.
    unfold populate_record, Py.truediv_int_float. simpl.
    rewrite Hconv. simpl. now rewrite Hzero.
Qed.

Lemma tokenize_prompt_one_row (c : run) (s : state World) enc s' :
  tokenize_prompt c s = (Ok enc, s') -> exists row, enc = [row].
Proof.
  unfold tokenize_prompt, encode_pt.
  destruct (requires_preprocessing c).
  - destruct (PREPROCESSING_FUNCTIONS !! run_model_type c) as [prepare|]; intros H.
    + invert_bind H. injection H as <- _. eauto.
    + discriminate.
  - intros H. injection H as <- _. eauto.
Qed.


End LoopClaims.

(* ===================================================================== *)
(** * Properties of the median and of the metrics *)
(* ===================================================================== *)

Section FloatOrder.

Lemma SFcompare_antisym (a b : spec_float) :
  SFcompare b a = option_map CompOpp (SFcompare a b).
Proof.
  destruct a as [sa|sa| |sa ma ea], b as [sb|sb| |sb mb eb]; simpl;
    try reflexivity; try (destruct sa; reflexivity); try (destruct sb; reflexivity);
    try (destruct sa, sb; reflexivity).
  destruct sa, sb; simpl; try reflexivity;
    rewrite (Z.compare_antisym ea eb); destruct (ea ?= eb); simpl; try reflexivity;
    rewrite (Pos.compare_cont_antisym ma mb Eq); reflexivity.
Qed.

Lemma ltb_leb (x y : float) : PrimFloat.ltb x y = true -> PrimFloat.leb x y = true.
Proof.
  rewrite ltb_spec, leb_spec. unfold SFltb, SFleb.
  destruct (SFcompare _ _) as [[]|]; congruence.
Qed.

Lemma SFcompare_defined (a b : spec_float) :
  SFeqb a a = true -> SFeqb b b = true -> exists c, SFcompare a b = Some c.
Proof.
  unfold SFeqb.
  destruct a as [sa|sa| |sa ma ea], b as [sb|sb| |sb mb eb]; simpl;
    try discriminate; intros _ _; eexists; reflexivity.
Qed.

Lemma not_ltb_leb (x y : float) :
  PrimFloat.is_nan x = false -> PrimFloat.is_nan y = false ->
  PrimFloat.ltb x y = false -> PrimFloat.leb y x = true.
Proof.
  unfold PrimFloat.is_nan. rewrite !FloatAxioms.eqb_spec, ltb_spec, leb_spec.
  intros Hx Hy. apply Bool.negb_false_iff in Hx, Hy.
  destruct (SFcompare_defined _ _ Hx Hy) as (c & Hc).
  unfold SFltb, SFleb. rewrite (SFcompare_antisym (Prim2SF x) (Prim2SF y)), Hc.
  destruct c; simpl; congruence.
Qed.

End FloatOrder.

Section MedianFacts.

Lemma insort_length (x : float) (l : list float) :
  List.length (Py.insort x l) = S (List.length l).
Proof.
  induction l as [|y l IH]; simpl; [reflexivity|].
  destruct (PrimFloat.ltb x y); simpl; [reflexivity | now rewrite IH].
Qed.

Lemma insort_permutation (x : float) (l : list float) :
  Permutation (Py.insort x l) (x :: l).
Proof.
  induction l as [|y l IH]; simpl; [reflexivity|].
  destruct (PrimFloat.ltb x y); [reflexivity|].
  rewrite IH. apply perm_swap.
Qed.

Lemma insort_ascending (x : float) (l : list float) :
  PrimFloat.is_nan x = false -> no_nan l ->
  ascending l -> ascending (Py.insort x l).
Proof.
  intros Hx Hl Hasc. induction l as [|y l IH]; simpl.
  - repeat constructor.
  - inversion Hl as [|? ? Hy Hl']; subst. inversion Hasc as [|? ? Hasc' Hhd]; subst.
    destruct (PrimFloat.ltb x y) eqn:Hlt.
    + constructor; [exact Hasc|]. constructor. now apply ltb_leb.
    + constructor; [now apply IH|].
      destruct l as [|z l]; simpl.
      * constructor. now apply not_ltb_leb.
      * destruct (PrimFloat.ltb x z).
        -- constructor. now apply not_ltb_leb.
        -- inversion Hhd; subst. now constructor.
Qed.

Lemma sorted_from (data acc : list float) :
  let out := fold_left (fun acc x => Py.insort x acc) data acc in
  Permutation out (data ++ acc) /\
  List.length out = (List.length data + List.length acc)%nat /\
  (no_nan data -> no_nan acc -> ascending acc -> ascending out).
Proof.
  revert acc. induction data as [|x data IH]; intros acc; simpl.
  - repeat split; auto.
  - destruct (IH (Py.insort x acc)) as (Hperm & Hlen & Hasc). repeat split.
    + rewrite Hperm, insort_permutation. symmetry. apply Permutation_middle.
    + rewrite Hlen, insort_length. lia.
    + intros Hdata Hacc Hsorted. inversion Hdata as [|? ? Hx Hdata']; subst.
      apply Hasc; [exact Hdata'| |now apply insort_ascending].
      unfold no_nan. rewrite (insort_permutation x acc). now constructor.
Qed.

Lemma sorted_permutation (data : list float) : Permutation (Py.sorted data) data.
Proof.
  destruct (sorted_from data []) as (Hperm & _). now rewrite app_nil_r in Hperm.
Qed.

Lemma sorted_length (data : list float) :
  List.length (Py.sorted data) = List.length data.
Proof.
  destruct (sorted_from data []) as (_ & Hlen & _). simpl in Hlen. unfold Py.sorted. lia.
Qed.

Lemma sorted_ascending (data : list float) : no_nan data -> ascending (Py.sorted data).
Proof.
  intros Hdata. destruct (sorted_from data []) as (_ & _ & Hasc).
  apply Hasc; [exact Hdata | constructor | constructor].
Qed.

Lemma getitem_in_range {A} (l : list A) (i : Z) :
  0 <= i < Py.len l -> exists x, Py.getitem l i = Ok x /\ nth_error l (Z.to_nat i) = Some x.
Proof.
  intros [Hlo Hhi]. unfold Py.getitem.
  destruct (Z.ltb_spec i 0) as [Hneg|_]; [lia|].
  destruct (nth_error l (Z.to_nat i)) as [x|] eqn:Hnth; [eauto|].
  apply nth_error_None in Hnth. unfold Py.len in Hhi. lia.
Qed.

Lemma statistics_median_empty :
  Py.statistics_median [] = Raise (StatisticsError "no median for empty data").
Proof. reflexivity. Qed.

Lemma odd_of_nat (n : nat) : Nat.odd n = (Z.of_nat n mod 2 =? 1).
Proof.
  destruct (Nat.Even_or_Odd n) as [[k ->]|[k ->]].
  - rewrite Nat.odd_even. symmetry. apply Z.eqb_neq. Z.div_mod_to_equations. lia.
  - rewrite Nat.odd_odd. symmetry. apply Z.eqb_eq. Z.div_mod_to_equations. lia.
Qed.

Lemma half_of_nat (n : nat) : Z.to_nat (Z.of_nat n / 2) = (n / 2)%nat.
Proof.
  rewrite <- (Nat2Z.id (n / 2)). f_equal. now rewrite Nat2Z.inj_div.
Qed.

(** On data without NaN, what [statistics.median] returns is the
    statistical median. *)
Lemma statistics_median_defined (data : list float) :
  data <> [] ->
  exists m, Py.statistics_median data = Ok m /\
            (no_nan data -> is_statistical_median data m).
Proof.
  intros Hne. unfold Py.statistics_median.
  pose proof (sorted_length data) as Hlen.
  pose proof (sorted_permutation data) as Hperm.
  pose proof (sorted_ascending data) as Hasc.
  set (ordered := Py.sorted data) in *.
  assert (Hpos : 0 < Py.len ordered).
  { unfold Py.len. rewrite Hlen. destruct data; [congruence | simpl; lia]. }
  destruct (Z.eqb_spec (Py.len ordered) 0) as [Hz|_]; [Z.div_mod_to_equations; lia|].
  pose proof (odd_of_nat (List.length ordered)) as Hparity.
  pose proof (half_of_nat (List.length ordered)) as Hhalf.
  fold (Py.len ordered) in Hparity, Hhalf.
  destruct (Z.eqb_spec (Py.len ordered mod 2) 1) as [Hodd|Heven].
  - destruct (getitem_in_range ordered (Py.len ordered / 2)) as (m & Hget & Hnth); [Z.div_mod_to_equations; lia|].
    exists m. split; [exact Hget|]. intros Hnan.
    exists ordered. repeat split; auto.
    cbv zeta. rewrite Hparity, <- Hhalf. exact Hnth.
  - destruct (getitem_in_range ordered (Py.len ordered / 2 - 1)) as (lo & Hlo & Hnlo); [Z.div_mod_to_equations; lia|].
    destruct (getitem_in_range ordered (Py.len ordered / 2)) as (hi & Hhi & Hnhi); [Z.div_mod_to_equations; lia|].
    rewrite Hlo, Hhi. simpl. eexists. split; [reflexivity|]. intros Hnan.
    exists ordered. repeat split; auto.
    cbv zeta. rewrite Hparity. exists lo, hi. repeat split.
    + rewrite <- Hhalf. rewrite <- Hnlo. f_equal. Z.div_mod_to_equations. lia.
    + rewrite <- Hhalf. exact Hnhi.
Qed.

End MedianFacts.

Section MetricsClaims.

Lemma populate_metrics_ok (records : list rec.t) (metrics : gmap string float) :
  populate_metrics records = Ok metrics ->
  exists mw mm,
    Py.statistics_median (warmup_values records) = Ok mw /\
    Py.statistics_median (measured_values records) = Ok mm /\
    metrics = <["median_warmup_tokens_per_second" := mw]>
                (<["median_tokens_per_second" := mm]> ∅).
Proof.
  unfold populate_metrics. intros H.
  destruct (Py.statistics_median (warmup_values records)) as [mw|e]; simpl in H; [|discriminate].
  destruct (Py.statistics_median (measured_values records)) as [mm|e]; simpl in H; [|discriminate].
  injection H as <-. eauto.
Qed.

(** The two lists of lines 603 and 604 are the throughputs of the records
    whose warm-up flag is set, and of those whose flag is not. *)
Lemma values_by_flag (records : list rec.t) :
  warmup_values records =
    map rec.tokens_per_second (List.filter (fun r => rec.warmup r) records) /\
  measured_values records =
    map rec.tokens_per_second (List.filter (fun r => negb (rec.warmup r)) records).
Proof.
  unfold warmup_values, measured_values. split; f_equal; apply List.filter_ext;
    intros r; now destruct (rec.warmup r).
Qed.

(** C3: the metrics of a record list are exactly two entries, the median of
    the tokens-per-second values of the records flagged as warm-up and the
    median of those of the records not so flagged, each group taken in the
    order of the records; they exist when both groups are non-empty. *)
Theorem C3_metrics_are_group_medians (records : list rec.t) :
  let warm :=
    map rec.tokens_per_second (List.filter (fun r => rec.warmup r) records) in
  let measured :=
    map rec.tokens_per_second (List.filter (fun r => negb (rec.warmup r)) records) in
  (forall metrics,
     populate_metrics records = Ok metrics ->
     exists mw mm,
       Py.statistics_median warm = Ok mw /\
       Py.statistics_median measured = Ok mm /\
       metrics !! "median_warmup_tokens_per_second" = Some mw /\
       metrics !! "median_tokens_per_second" = Some mm /\
       (forall key, is_Some (metrics !! key) ->
          key = "median_warmup_tokens_per_second" \/ key = "median_tokens_per_second") /\
       size metrics = 2%nat /\
       (no_nan warm -> is_statistical_median warm mw) /\
       (no_nan measured -> is_statistical_median measured mm)) /\
  (warm <> [] -> measured <> [] ->
   exists metrics, populate_metrics records = Ok metrics).
Proof.
  intros warm measured.
  destruct (values_by_flag records) as [Hwarm Hmeasured].
  fold warm in Hwarm. fold measured in Hmeasured.
  split.
  - intros metrics Hm.
    destruct (populate_metrics_ok _ _ Hm) as (mw & mm & Hw & Hmm & ->).
    rewrite Hwarm in Hw. rewrite Hmeasured in Hmm.
    exists mw, mm. repeat split; try assumption; try reflexivity.
    + intros key [v Hv].
      destruct (decide (key = "median_warmup_tokens_per_second")) as [->|Hk1]; [now left|].
      destruct (decide (key = "median_tokens_per_second")) as [->|Hk2]; [now right|].
      rewrite !lookup_insert_ne, lookup_empty in Hv by congruence. discriminate.
    + intros Hnan.
      assert (Hne : warm <> []).
      { intros Hnil. rewrite Hnil in Hw. discriminate. }
      destruct (statistics_median_defined _ Hne) as (m & Hmed & Hstat).
      rewrite Hw in Hmed. injection Hmed as ->. auto.
    + intros Hnan.
      assert (Hne : measured <> []).
      { intros Hnil. rewrite Hnil in Hmm. discriminate. }
      destruct (statistics_median_defined _ Hne) as (m & Hmed & Hstat).
      rewrite Hmm in Hmed. injection Hmed as ->. auto.
  - intros Hw Hm.
    destruct (statistics_median_defined _ Hw) as (mw & Hmw & _).
    destruct (statistics_median_defined _ Hm) as (mm & Hmm & _).
    unfold populate_metrics. rewrite Hwarm, Hmeasured, Hmw, Hmm. simpl. eauto.
Qed.

End MetricsClaims.

Section FailureClaims.
Context {World : Type} {SV : Services World}.

Lemma range_in (n i : Z) : In i (Py.range n) -> 0 <= i < n.
Proof.
  unfold Py.range. intros Hin. apply in_map_iff in Hin.
  destruct Hin as (k & <- & Hk). apply in_seq in Hk. lia.
Qed.

Lemma filter_nothing {A} (f : A -> bool) (l : list A) :
  Forall (fun x => f x = false) l -> List.filter f l = [].
Proof.
  induction 1 as [|x l Hx _ IH]; simpl; [reflexivity|]. now rewrite Hx.
Qed.

Lemma loop_flags (c : run) (s : state World) (records : list rec.t) (s' : state World) :
  benchmark_loop c s = (Ok records, s') ->
  Forall (fun r => exists i,
            0 <= i < args.n_warmup_runs (run_args c) + args.n_runs (run_args c) /\
            rec.warmup r = (if i <? args.n_warmup_runs (run_args c) then true else false))
         records.
Proof.
  intros Hrun. apply loop_records in Hrun.
  remember (Py.range _) as indices eqn:Hindices.
  assert (Hin : forall i, In i indices ->
            0 <= i < args.n_warmup_runs (run_args c) + args.n_runs (run_args c)).
  { intros i Hi. subst indices. now apply range_in. }
  clear Hindices.
  induction Hrun as [|i r indices rs Hhead _ IH]; constructor.
  - destruct Hhead as (s1 & s2 & Hr). apply iteration_ok in Hr. destruct Hr as [Hflag _].
    exists i. split; [apply Hin; now left | exact Hflag].
  - apply IH. intros j Hj. apply Hin. now right.
Qed.

Lemma load_prompt_keeps_state (a : args.t) (s : state World) r s1 :
  load_prompt a s = (r, s1) -> s1 = s.
Proof.
  unfold load_prompt.
  destruct (args.preset_prompt a) as [name|]; [destruct (Py.str_truthy name)|].
  - unfold bind, ask. destruct (read_file _ _); intros H; now injection H as _ <-.
  - intros H; now injection H as _ <-.
  - intros H; now injection H as _ <-.
Qed.

(** C7: the median of an empty group raises, so the metrics fail whenever
    the warm-up group or the measured group is empty, in particular after
    a loop with no warm-up run or no measured run; [main] then returns
    nothing. *)
Theorem C7_median_fails_on_empty_group :
  (forall records,
     warmup_values records = [] \/ measured_values records = [] ->
     populate_metrics records = Raise (StatisticsError "no median for empty data")) /\
  (forall (c : run) (s : state World) records s',
     benchmark_loop c s = (Ok records, s') ->
     args.n_warmup_runs (run_args c) = 0 \/ args.n_runs (run_args c) = 0 ->
     populate_metrics records = Raise (StatisticsError "no median for empty data")) /\
  (forall (a : args.t) (s : state World) records s',
     args.n_warmup_runs a = 0 \/ args.n_runs a = 0 ->
     main a s <> (Ok records, s')).
Proof.
  assert (Hempty : forall records,
            warmup_values records = [] \/ measured_values records = [] ->
            populate_metrics records = Raise (StatisticsError "no median for empty data")).
  { intros records [Hw|Hm]; unfold populate_metrics.
    - now rewrite Hw.
    - destruct (warmup_values records) as [|x l] eqn:Hw; [reflexivity|].
      destruct (statistics_median_defined (x :: l)) as (mw & -> & _); [discriminate|].
      simpl. now rewrite Hm. }
  assert (Hloop : forall (c : run) (s : state World) records s',
            benchmark_loop c s = (Ok records, s') ->
            args.n_warmup_runs (run_args c) = 0 \/ args.n_runs (run_args c) = 0 ->
            populate_metrics records = Raise (StatisticsError "no median for empty data")).
  { intros c s records s' Hrun Hzero. apply Hempty.
    apply loop_flags in Hrun. destruct Hzero as [HW|HR]; [left|right].
    - unfold warmup_values. rewrite filter_nothing; [reflexivity|].
      eapply List.Forall_impl; [|exact Hrun]. intros r (i & Hi & ->). simpl.
      destruct (Z.ltb_spec i (args.n_warmup_runs (run_args c))); [lia | reflexivity].
    - unfold measured_values. rewrite filter_nothing; [reflexivity|].
      eapply List.Forall_impl; [|exact Hrun]. intros r (i & Hi & ->). simpl.
      destruct (Z.ltb_spec i (args.n_warmup_runs (run_args c))); [reflexivity | lia]. }
  split; [exact Hempty|]. split; [exact Hloop|].
  intros a s records s' Hzero Hmain. unfold main in Hmain.
  do 4 invert_bind Hmain.
  match goal with x : (string * tokenizer * model)%type |- _ => destruct x as [[mt tok] m] end.
  do 4 invert_bind Hmain.
  match goal with H : lift (populate_metrics _) _ = _ |- _ => apply lift_ok in H; destruct H as [Hmetrics _] end.
  match goal with H : benchmark_loop _ _ = _ |- _ => apply Hloop in H; [|exact Hzero] end.
  congruence.
Qed.

(** C8, as amended: a model type whose lower-case form is not a key of the
    table makes the initialisation raise [KeyError] with the message of
    line 446, leaving the state untouched; [main] then stops with that error
    after seeding only, with no tokenizer or model load in its trace. *)
Theorem C8_unsupported_model_type_raises_key_error (a : args.t) :
  MODEL_CLASSES !! Py.str_lower (args.model_type a) = None ->
  (forall dtype (s : state World),
     initialize a dtype s = (Raise (KeyError unsupported_model_message), s)) /\
  (forall (s : state World) prompt s1,
     load_prompt a s = (Ok prompt, s1) ->
     main a s =
       (Raise (KeyError unsupported_model_message),
        mkState (set_seed (args.seed a) (world s)) (stdin s)
                (trace s ++ [EvSetSeed (args.seed a)])%list)).
Proof.
  intros Hmiss.
  assert (Hinit : forall dtype (s : state World),
            initialize a dtype s = (Raise (KeyError unsupported_model_message), s)).
  { intros dtype s. unfold initialize, lookup_model_classes. now rewrite Hmiss. }
  split; [exact Hinit|].
  intros s prompt s1 Hprompt.
  pose proof (load_prompt_keeps_state _ _ _ _ Hprompt) as ->.
  unfold main. rewrite (bind_step _ _ _ _ _ Hprompt).
  unfold bind at 1. simpl. unfold bind at 1. simpl.
  now rewrite (bind_raise _ _ _ _ _ (Hinit _ _)).
Qed.

End FailureClaims.

(* ===================================================================== *)
(** * The claims at work on the concrete world *)
(* ===================================================================== *)

Lemma C1_record_count_and_warmup_flags_witness :
  0 <= 1 /\ 0 <= 2 /\
  exists records s',
    benchmark_loop (Fixture.run_of Fixture.base_args "Hi") Fixture.start = (Ok records, s') /\
    Py.len records = 1 + 2 /\
    map rec.warmup records = [true; false; false].
Proof.
  assert (HW : 0 <= 1) by lia. assert (HR : 0 <= 2) by lia.
  split; [exact HW|]. split; [exact HR|].
  destruct (C1_record_count_and_warmup_flags
              (Fixture.run_of Fixture.base_args "Hi") Fixture.start HW HR)
    as [Hrecords Hcompletes].
  destruct (Hcompletes (fun _ => True) I) as (records & s' & Hrun).
  { intros i [w lines events] _.
    destruct w; eexists; eexists; (split; [vm_compute; reflexivity | exact I]). }
  exists records, s'. split; [exact Hrun|]. exact (Hrecords records s' Hrun).
Defined.

Lemma C2_tokens_per_second_is_quotient_witness :
  (exists records s',
     benchmark_loop (Fixture.run_of Fixture.base_args "Hi") Fixture.start = (Ok records, s') /\
     forall r, In r records ->
       PrimFloat.eqb (rec.latency r) PrimFloat.zero = false /\
       exists n, Py.float_of_int (rec.total_tokens r) = Ok n /\
                 rec.tokens_per_second r = PrimFloat.div n (rec.latency r)) /\
  populate_record (Fixture.run_of Fixture.base_args "Hi") 0 5%float 5%float
    (Some [[72; 105]]) 1026 [[72; 105; 33; 33]] ["Hi!!"]
  = Raise (ZeroDivisionError "float division by zero").
Proof.
  destruct (C2_tokens_per_second_is_quotient (World := Fixture.World)
              (Fixture.run_of Fixture.base_args "Hi")) as [Hquotient Hzero].
  split.
  - eexists; eexists. split; [vm_compute; reflexivity|].
    intros r Hin. eapply (Hquotient Fixture.start); [vm_compute; reflexivity | exact Hin].
  - apply (Hzero 0 5%float 5%float [[72; 105]] 1026 [[72; 105; 33; 33]] ["Hi!!"] 4%float);
      vm_compute; reflexivity.
Defined.

Lemma C3_metrics_are_group_medians_witness :
  exists metrics,
    populate_metrics Fixture.sample_records = Ok metrics /\
    metrics !! "median_warmup_tokens_per_second" = Some 2%float /\
    metrics !! "median_tokens_per_second" = Some 20%float /\
    size metrics = 2%nat.
Proof.
  destruct (C3_metrics_are_group_medians Fixture.sample_records) as [Hvalues Hexists].
  cbv zeta in Hvalues, Hexists.
  destruct Hexists as (metrics & Hm); [discriminate | discriminate |].
  exists metrics. split; [exact Hm|].
  destruct (Hvalues metrics Hm) as (mw & mm & Hw & Hmm & Hk1 & Hk2 & _ & Hsize & _).
  assert (Hmw : mw = 2%float).
  { assert (H : Ok mw = Ok 2%float) by (rewrite <- Hw; vm_compute; reflexivity).
    now injection H. }
  assert (Hm20 : mm = 20%float).
  { assert (H : Ok mm = Ok 20%float) by (rewrite <- Hmm; vm_compute; reflexivity).
    now injection H. }
  subst mw mm. auto.
Defined.

Lemma C7_median_fails_on_empty_group_witness :
  populate_metrics Fixture.measured_only = Raise (StatisticsError "no median for empty data") /\
  forall records s',
    main (Fixture.make_args "gpt2" "Hi" 0 1) Fixture.start <> (Ok records, s').
Proof.
  destruct (C7_median_fails_on_empty_group (World := Fixture.World))
    as (Hempty & _ & Hmain).
  split.
  - apply Hempty. left. reflexivity.
  - intros records s'. apply Hmain. left. reflexivity.
Defined.

Lemma C8_unsupported_model_type_raises_key_error_witness :
  MODEL_CLASSES !! Py.str_lower "BERT" = None /\
  main (Fixture.make_args "BERT" "Hi" 1 2) Fixture.start =
    (Raise (KeyError unsupported_model_message),
     mkState false [] [EvSetSeed 42]).
Proof.
  assert (Hmiss : MODEL_CLASSES !! Py.str_lower "BERT" = None) by (vm_compute; reflexivity).
  split; [exact Hmiss|].
  destruct (C8_unsupported_model_type_raises_key_error (World := Fixture.World)
              (Fixture.make_args "BERT" "Hi" 1 2) Hmiss) as [_ Hmain].
  apply (Hmain Fixture.start "Hi" Fixture.start). reflexivity.
Defined.

(** C8 as stated fails: ["GPT2"] is not a key of the table, yet no error is
    raised and the tokenizer and the model are loaded. *)
Lemma C8_counterexample_mixed_case_model_type :
  MODEL_CLASSES !! "GPT2" = None /\
  lookup_model_classes "GPT2" = Ok ("gpt2", (GPT2LMHeadModel, GPT2Tokenizer)) /\
  exists records s',
    main (Fixture.make_args "GPT2" "Hi" 1 2) Fixture.start = (Ok records, s') /\
    List.filter is_load_event (trace s') =
      [ EvTokenizerFromPretrained GPT2Tokenizer "gpt2";
        EvModelFromPretrained GPT2LMHeadModel "gpt2" torch_float32 "/data" ].
Proof.
  split; [vm_compute; reflexivity|]. split; [vm_compute; reflexivity|].
  eexists; eexists. split; vm_compute; reflexivity.
Qed.


(** The same failure seen from [main]: an empty line typed at the prompt. *)
Example main_with_empty_prompt :
  fst (main (Fixture.make_args "gpt2" "" 1 2) (mkState false [""] []))
  = Raise (AttributeError "'NoneType' object has no attribute 'to'").
Proof. vm_compute. reflexivity. Qed.

(** A clock that stands still stops the loop at line 593. *)
Example main_with_frozen_clock :
  fst (main (SV := Fixture.frozen_services) Fixture.base_args Fixture.frozen)
  = Raise (ZeroDivisionError "float division by zero").
Proof. vm_compute. reflexivity. Qed.

(* ===================================================================== *)
(** * Further properties: lengths, truncation and the displayed text *)
(* ===================================================================== *)
Section MoreStringFacts.

Lemma substring_length (s : string) (n m : nat) :
  String.length (String.substring n m s) = Nat.min m (String.length s - n).
Proof.
  revert n m. induction s as [|ch s IH]; intros [|n] [|m]; simpl; try reflexivity.
  - now rewrite IH, Nat.sub_0_r.
  - apply IH.
  - apply IH.
Qed.

Lemma substring_of_prefix (s : string) (n m l : nat) :
  (m + l <= n)%nat ->
  String.substring m l (String.substring 0 n s) = String.substring m l s.
Proof.
  revert n m l. induction s as [|ch s IH]; intros n m l Hle.
  - destruct n; reflexivity.
  - destruct n as [|n].
    + assert (m = 0%nat) by lia. assert (l = 0%nat) by lia. subst. reflexivity.
    + destruct m as [|m]; simpl.
      * destruct l as [|l]; [reflexivity|]. f_equal.
        apply (IH n 0%nat l). lia.
      * apply IH. lia.
Qed.

Lemma substring_split (s : string) (n : nat) :
  (n <= String.length s)%nat ->
  s = String.append (String.substring 0 n s)
                    (String.substring n (String.length s - n) s).
Proof.
  revert n. induction s as [|ch s IH]; intros [|n] Hn; simpl in *; try reflexivity; try lia.
  - change (String ch s = String ch (String.substring 0 (String.length s) s)).
    now rewrite substring_all.
  - transitivity (String ch (String.append (String.substring 0 n s)
                                (String.substring n (String.length s - n) s)));
      [f_equal; apply IH; lia | reflexivity].
Qed.

Lemma substring_append_drop (s1 s2 : string) :
  String.substring (String.length s1) (String.length s2) (String.append s1 s2) = s2.
Proof.
  induction s1 as [|ch s1 IH]; simpl; [apply substring_all | exact IH].
Qed.

Lemma append_length (s1 s2 : string) :
  String.length (String.append s1 s2) = (String.length s1 + String.length s2)%nat.
Proof. induction s1 as [|ch s1 IH]; simpl; [reflexivity | now rewrite IH]. Qed.

Lemma prefix_of_substring (s : string) (n : nat) :
  String.prefix (String.substring 0 n s) s = true.
Proof.
  revert n. induction s as [|ch s IH]; intros [|n]; simpl; try reflexivity.
  destruct (ascii_dec ch ch) as [_|Hne]; [apply IH | congruence].
Qed.

Lemma prefix_of_append (s1 s2 : string) : String.prefix s1 (String.append s1 s2) = true.
Proof.
  induction s1 as [|ch s1 IH]; simpl; [destruct s2; reflexivity|].
  destruct (ascii_dec ch ch) as [_|Hne]; [exact IH | congruence].
Qed.

Lemma substring_past_end (s : string) (n m : nat) :
  (String.length s <= n)%nat -> String.substring n m s = "".
Proof.
  revert n m. induction s as [|ch s IH]; intros n m Hn.
  - destruct n, m; reflexivity.
  - destruct n as [|n]; simpl in *; [lia|]. apply IH. lia.
Qed.

(** Where [index] finds a string, the string fits. *)
Lemma index_fits (tok text : string) (n : nat) :
  String.index 0 tok text = Some n ->
  (n + String.length tok <= String.length text)%nat.
Proof.
  intros Hidx. pose proof (index_correct1 _ _ _ _ Hidx) as Hsub.
  pose proof (substring_length text n (String.length tok)) as Hlen.
  rewrite Hsub in Hlen.
  destruct tok as [|ch tok].
  - destruct text; simpl in Hidx; injection Hidx as <-; simpl; lia.
  - clear Hsub Hidx.
    change (String.length (String ch tok)) with (S (String.length tok)) in *. lia.
Qed.

End MoreStringFacts.

Lemma append_empty_r (s : string) : String.append s "" = s.
Proof.
  induction s as [|ch s IH]; [reflexivity|].
  change (String ch (String.append s "") = String ch s). now rewrite IH.
Qed.

Lemma substring_of_substring (s : string) (n k m l : nat) :
  (m + l <= k)%nat ->
  String.substring m l (String.substring n k s) = String.substring (n + m) l s.
Proof.
  revert s. induction n as [|n IH]; intros s Hle.
  - now apply substring_of_prefix.
  - destruct s as [|ch s]; simpl.
    + destruct k, m, l; reflexivity.
    + now apply IH.
Qed.

(** X1: the adjusted length is never negative, never exceeds a known model
    size, is one of the requested length, the model size and the fallback,
    and adjusting twice changes nothing. *)
Theorem X1_adjusted_length_stays_in_range (length max_sequence_length : Z) :
  0 <= adjust_length_to_model length max_sequence_length /\
  (max_sequence_length <= 0 \/
   adjust_length_to_model length max_sequence_length <= max_sequence_length) /\
  (adjust_length_to_model length max_sequence_length = length \/
   adjust_length_to_model length max_sequence_length = max_sequence_length \/
   adjust_length_to_model length max_sequence_length = MAX_LENGTH) /\
  adjust_length_to_model (adjust_length_to_model length max_sequence_length)
    max_sequence_length
  = adjust_length_to_model length max_sequence_length.
Proof.
  unfold adjust_length_to_model, MAX_LENGTH.
  destruct (Z.ltb_spec length 0), (Z.ltb_spec 0 max_sequence_length),
    (Z.ltb_spec max_sequence_length length); simpl;
    repeat match goal with
           | |- context [?a <? ?b] => destruct (Z.ltb_spec a b); simpl
           end;
    repeat split; lia.
Qed.

(** X2: when the stop token occurs in the decoded text, the text is cut
    right before its first occurrence: what is kept is followed in the text
    by the stop token, and does not contain the stop token. *)
Theorem X2_truncation_stops_before_first_stop_token (text tok : string) (n : nat) :
  Py.str_truthy tok = true ->
  String.index 0 tok text = Some n ->
  truncate_at_stop_token text (Some tok) = String.substring 0 n text /\
  String.length (truncate_at_stop_token text (Some tok)) = n /\
  text = String.append (truncate_at_stop_token text (Some tok))
           (String.append tok
              (String.substring (n + String.length tok)
                 (String.length text - (n + String.length tok)) text)) /\
  String.index 0 tok (truncate_at_stop_token text (Some tok)) = None.
Proof.
  intros Htok Hidx.
  pose proof (index_fits _ _ _ Hidx) as Hfit.
  pose proof (index_correct1 _ _ _ _ Hidx) as Hocc.
  rewrite (truncate_stop_token_present _ _ _ Htok Hidx).
  assert (Hlen : String.length (String.substring 0 n text) = n).
  { rewrite substring_length. lia. }
  split; [reflexivity|]. split; [exact Hlen|]. split.
  - rewrite (substring_split text n) at 1 by lia. f_equal.
    set (rest := String.substring n (String.length text - n) text).
    assert (Hrest : String.length rest = (String.length text - n)%nat).
    { unfold rest. rewrite substring_length. lia. }
    rewrite (substring_split rest (String.length tok)) by lia.
    unfold rest at 1 3. rewrite !substring_of_substring by lia.
    rewrite Nat.add_0_r, Hocc, Hrest. do 2 f_equal. lia.
  - destruct (String.index 0 tok (String.substring 0 n text)) as [m|] eqn:Hagain;
      [exfalso | reflexivity].
    pose proof (index_fits _ _ _ Hagain) as Hfit'. rewrite Hlen in Hfit'.
    pose proof (index_correct1 _ _ _ _ Hagain) as Hocc'.
    rewrite substring_of_prefix in Hocc' by lia.
    assert (Hpos : (0 < String.length tok)%nat) by (destruct tok; [discriminate | simpl; lia]).
    apply (index_correct2 _ _ _ _ Hidx m); [lia | lia | exact Hocc'].
Qed.

Lemma X2_truncation_stops_before_first_stop_token_witness :
  truncate_at_stop_token "Hello<END>world<END>" (Some "<END>") = "Hello" /\
  String.index 0 "<END>" (truncate_at_stop_token "Hello<END>world<END>" (Some "<END>")) = None.
Proof.
  destruct (X2_truncation_stops_before_first_stop_token "Hello<END>world<END>" "<END>" 5)
    as (Hout & _ & _ & Hgone); try reflexivity.
  split; [exact Hout | exact Hgone].
Defined.

(** X3: whatever the stop token, what line 563 keeps is a prefix of the
    decoded text, so it is never longer than the decoded text. *)
Theorem X3_truncation_returns_a_prefix (text : string) (stop_token : option string) :
  String.prefix (truncate_at_stop_token text stop_token) text = true /\
  (String.length (truncate_at_stop_token text stop_token) <= String.length text)%nat.
Proof.
  unfold truncate_at_stop_token, Py.str_slice.
  change (Py.slice_bound (Py.str_len text) 0 None) with 0.
  change (Z.to_nat 0) with 0%nat.
  split; [apply prefix_of_substring|].
  rewrite substring_length. lia.
Qed.

(** X4: without a stop token, when the decoded output starts with the
    decoded prompt, the displayed text is the raw prompt followed by what
    the output adds to the decoded prompt. *)
Theorem X4_displayed_text_replaces_decoded_prompt
    (c : run) (encoded_prompt0 generated_sequence : list Z) (continuation : string) :
  args.stop_token (run_args c) = None ->
  tok_decode (run_tokenizer c) generated_sequence =
    String.append (tok_decode (run_tokenizer c) encoded_prompt0) continuation ->
  total_sequence c encoded_prompt0 generated_sequence =
    String.append (run_prompt_text c) continuation.
Proof.
  intros Hstop Hdecoded. unfold total_sequence.
  rewrite Hstop, Hdecoded.
  destruct (truncate_without_stop_token
              (String.append (tok_decode (run_tokenizer c) encoded_prompt0) continuation))
    as [-> _].
  f_equal. unfold Py.str_slice, Py.slice_bound, Py.str_len.
  set (decoded := tok_decode (run_tokenizer c) encoded_prompt0).
  rewrite append_length.
  destruct (Z.ltb_spec (Z.of_nat (String.length decoded)) 0) as [Hneg|_]; [lia|].
  replace (Z.to_nat (Z.min _ _)) with (String.length decoded) by lia.
  replace (Z.to_nat (_ - _)) with (String.length continuation) by lia.
  apply substring_append_drop.
Qed.

Lemma X4_displayed_text_replaces_decoded_prompt_witness :
  total_sequence (Fixture.run_of Fixture.base_args "Hi") [72; 105] [72; 105; 33; 33] = "Hi!!".
Proof.
  apply (X4_displayed_text_replaces_decoded_prompt
           (Fixture.run_of Fixture.base_args "Hi") [72; 105] [72; 105; 33; 33] "!!");
    reflexivity.
Defined.

(** X5: when the stop token first occurs no later than the end of the
    decoded prompt, nothing of the output is left and the displayed text is
    the raw prompt alone. *)
Theorem X5_stop_token_inside_prompt_leaves_the_prompt
    (c : run) (encoded_prompt0 generated_sequence : list Z) (tok : string) (n : nat) :
  args.stop_token (run_args c) = Some tok ->
  Py.str_truthy tok = true ->
  String.index 0 tok (tok_decode (run_tokenizer c) generated_sequence) = Some n ->
  (n <= String.length (tok_decode (run_tokenizer c) encoded_prompt0))%nat ->
  total_sequence c encoded_prompt0 generated_sequence = run_prompt_text c.
Proof.
  intros Hstop Htok Hidx Hn. unfold total_sequence. rewrite Hstop.
  pose proof (index_fits _ _ _ Hidx) as Hfit.
  rewrite (truncate_stop_token_present _ _ _ Htok Hidx).
  rewrite <- (append_empty_r (run_prompt_text c)) at 2. f_equal.
  unfold Py.str_slice, Py.slice_bound, Py.str_len.
  rewrite substring_length.
  destruct (Z.ltb_spec (Z.of_nat (String.length
              (tok_decode (run_tokenizer c) encoded_prompt0))) 0) as [Hneg|_]; [lia|].
  apply substring_past_end. rewrite substring_length. lia.
Qed.

(* ===================================================================== *)
(** * Further properties: what the script appends to the trace *)
(* ===================================================================== *)

Section TraceFacts.
Context {World : Type} {SV : Services World}.

Lemma emits_weaken {A} (c : M World A) (P Q : event -> Prop) :
  (forall e, P e -> Q e) -> emits c P -> emits c Q.
Proof.
  intros HPQ Hc s r s' Hrun. destruct (Hc s r s' Hrun) as (events & Htrace & Hall).
  exists events. split; [exact Htrace|]. eapply List.Forall_impl; eauto.
Qed.

Lemma emits_silent {A} (c : M World A) (P : event -> Prop) :
  (forall s r s', c s = (r, s') -> trace s' = trace s) -> emits c P.
Proof.
  intros Hsilent s r s' Hrun. exists []. rewrite app_nil_r.
  split; [eapply Hsilent; eauto | constructor].
Qed.

Lemma emits_ret {A} (a : A) P : emits (World := World) (ret a) P.
Proof. apply emits_silent. intros s r s' H. now injection H as _ <-. Qed.

Lemma emits_raise {A} (e : exn) P : emits (World := World) (raise (A := A) e) P.
Proof. apply emits_silent. intros s r s' H. now injection H as _ <-. Qed.

Lemma emits_lift {A} (x : result A) P : emits (World := World) (lift x) P.
Proof. apply emits_silent. intros s r s' H. now injection H as _ <-. Qed.

Lemma emits_call {A} (f : World -> result A * World) P : emits (call f) P.
Proof.
  apply emits_silent. intros s r s'. unfold call.
  destruct (f (world s)) as [r0 w]. intros H. now injection H as _ <-.
Qed.

Lemma emits_call_total {A} (f : World -> A * World) P : emits (call_total f) P.
Proof.
  apply emits_silent. intros s r s'. unfold call_total.
  destruct (f (world s)) as [r0 w]. intros H. now injection H as _ <-.
Qed.

Lemma emits_update (f : World -> World) P : emits (update f) P.
Proof. apply emits_silent. intros s r s' H. now injection H as _ <-. Qed.

Lemma emits_ask {A} (f : World -> A) P : emits (ask f) P.
Proof. apply emits_silent. intros s r s' H. now injection H as _ <-. Qed.

Lemma emits_input (prompt : string) P : emits (World := World) (input prompt) P.
Proof.
  apply emits_silent. intros s r s'. unfold input.
  destruct (stdin s); intros H; now injection H as _ <-.
Qed.

Lemma emits_emit (e : event) (P : event -> Prop) : P e -> emits (World := World) (emit e) P.
Proof.
  intros He s r s' H. injection H as _ <-. exists [e].
  split; [reflexivity | now constructor].
Qed.

Lemma emits_bind {A B} (c : M World A) (k : A -> M World B) P :
  emits c P -> (forall a, emits (k a) P) -> emits (bind c k) P.
Proof.
  intros Hc Hk s r s' Hrun. unfold bind in Hrun.
  destruct (c s) as [[a|e] s1] eqn:Hcs.
  - destruct (Hc _ _ _ Hcs) as (ev1 & Ht1 & Hall1).
    destruct (Hk a _ _ _ Hrun) as (ev2 & Ht2 & Hall2).
    exists (ev1 ++ ev2)%list. split.
    + now rewrite Ht2, Ht1, app_assoc.
    + apply Forall_app. now split.
  - injection Hrun as <- <-. eauto.
Qed.

End TraceFacts.

Section PreprocessingFacts.
Context {World : Type} {SV : Services World}.

Lemma emits_bind_ok {A B} (c : M World A) (k : A -> M World B) P :
  emits c P ->
  (forall a s s1, c s = (Ok a, s1) -> emits (k a) P) ->
  emits (bind c k) P.
Proof.
  intros Hc Hk s r s' Hrun. unfold bind in Hrun.
  destruct (c s) as [[a|e] s1] eqn:Hcs.
  - destruct (Hc _ _ _ Hcs) as (ev1 & Ht1 & Hall1).
    destruct (Hk a _ _ Hcs _ _ _ Hrun) as (ev2 & Ht2 & Hall2).
    exists (ev1 ++ ev2)%list. split.
    + now rewrite Ht2, Ht1, app_assoc.
    + apply Forall_app. now split.
  - injection Hrun as <- <-. eauto.
Qed.

Lemma input_until_found (valid : string -> bool) (lines : list string) line rest :
  input_until valid lines = (Ok line, rest) ->
  exists skipped,
    lines = (skipped ++ line :: rest)%list /\
    valid line = true /\
    Forall (fun l => valid l = false) skipped.
Proof.
  induction lines as [|l lines IH]; simpl; [discriminate|].
  destruct (valid l) eqn:Hl.
  - intros H. injection H as <- <-. exists []. repeat split; auto.
  - intros H. destruct (IH H) as (skipped & -> & Hvalid & Hskipped).
    exists (l :: skipped). repeat split; auto.
Qed.

Lemma input_until_missing (valid : string -> bool) (lines : list string) e rest :
  input_until valid lines = (Raise e, rest) ->
  e = EOFError /\ rest = [] /\ Forall (fun l => valid l = false) lines.
Proof.
  induction lines as [|l lines IH]; simpl.
  - intros H. injection H as <- <-. repeat split; constructor.
  - destruct (valid l) eqn:Hl; [discriminate|].
    intros H. destruct (IH H) as (-> & -> & Hall). repeat split; auto.
Qed.

(** X6: the console loop of the XLM language choice returns the first
    line that is accepted, having consumed it and the refused lines before
    it; it ends with [EOFError], the input used up, exactly when no line is
    accepted. *)
Theorem X6_input_until_takes_first_accepted_line
    (valid : string -> bool) (lines : list string) :
  match input_until valid lines with
  | (Ok line, rest) =>
      exists skipped,
        lines = (skipped ++ line :: rest)%list /\
        valid line = true /\
        Forall (fun l => valid l = false) skipped
  | (Raise e, rest) =>
      e = EOFError /\ rest = [] /\ Forall (fun l => valid l = false) lines
  end.
Proof.
  destruct (input_until valid lines) as [[line|e] rest] eqn:Hrun.
  - now apply input_until_found.
  - now apply input_until_missing.
Qed.

Lemma xlm_prompt_unchanged (a : args.t) (m : model) (tok : tokenizer)
    (prompt_text : string) (s : state World) text s' :
  prepare_xlm_input a m tok prompt_text s = (Ok text, s') -> text = prompt_text.
Proof.
  unfold prepare_xlm_input.
  destruct (lang2id m) as [langs|]; [|intros H; now injection H as <- _].
  destruct (use_lang_emb m); [|intros H; now injection H as <- _].
  intros H. invert_bind H.
  match type of H with context [langs !! ?l] => destruct (langs !! l) end; [|discriminate].
  do 2 invert_bind H. now injection H as <- _.
Qed.

(** X7: the XLM preparation returns the prompt unchanged and can only fail
    with [EOFError].  Without language embeddings it touches nothing.
    Otherwise it sets the language id of a listed language once: the
    language of the command line when it is listed, without reading the
    console, else the first listed language typed at the console. *)
Theorem X7_xlm_language_choice (a : args.t) (m : model) (tok : tokenizer)
    (prompt_text : string) (s : state World) r s' :
  prepare_xlm_input a m tok prompt_text s = (r, s') ->
  match r with
  | Ok text =>
      text = prompt_text /\
      ((s' = s /\ (lang2id m = None \/ use_lang_emb m = false)) \/
       exists langs language id skipped,
         lang2id m = Some langs /\ use_lang_emb m = true /\
         langs !! language = Some id /\
         world s' = set_lang_id id (world s) /\
         trace s' = (trace s ++ [EvSetLangId id])%list /\
         ((language = args.xlm_language a /\ skipped = [] /\ stdin s' = stdin s) \/
          (langs !! args.xlm_language a = None /\
           stdin s = (skipped ++ language :: stdin s')%list /\
           Forall (fun line => langs !! line = None) skipped)))
  | Raise e =>
      e = EOFError /\ stdin s' = [] /\ trace s' = trace s /\ world s' = world s /\
      exists langs,
        lang2id m = Some langs /\ use_lang_emb m = true /\
        langs !! args.xlm_language a = None /\
        Forall (fun line => langs !! line = None) (stdin s)
  end.
Proof.
  unfold prepare_xlm_input.
  destruct (lang2id m) as [langs|] eqn:Hlangs.
  2:{ intros H. injection H as <- <-. split; [reflexivity|]. left. auto. }
  destruct (use_lang_emb m) eqn:Hemb.
  2:{ intros H. injection H as <- <-. split; [reflexivity|]. left. auto. }
  destruct (langs !! args.xlm_language a) as [id|] eqn:Hcfg.
  - rewrite bool_decide_eq_true_2 by eauto.
    unfold bind, ret, update, emit. simpl. rewrite Hcfg. simpl.
    intros H. injection H as <- <-. split; [reflexivity|]. right.
    exists langs, (args.xlm_language a), id, []. simpl. repeat split; auto.
  - rewrite bool_decide_eq_false_2 by (intros [x Hx]; congruence).
    unfold bind at 1. unfold select_language.
    destruct (input_until _ (stdin s)) as [[language|e] rest] eqn:Hin; simpl.
    + apply input_until_found in Hin. destruct Hin as (skipped & Hlines & Hvalid & Hskipped).
      apply bool_decide_eq_true_1 in Hvalid. destruct Hvalid as [id Hid].
      rewrite Hid. unfold bind, update, emit, ret. simpl.
      intros H. injection H as <- <-. split; [reflexivity|]. right.
      exists langs, language, id, skipped. simpl. repeat split; auto.
      right. repeat split; auto.
      eapply List.Forall_impl; [|exact Hskipped]. intros l Hl. simpl in Hl.
      apply bool_decide_eq_false_1 in Hl.
      destruct (langs !! l) eqn:Hlook; [exfalso; apply Hl; eauto | reflexivity].
    + apply input_until_missing in Hin. destruct Hin as (-> & -> & Hall).
      intros H. injection H as <- <-. simpl. repeat split; auto.
      exists langs. repeat split; auto.
      eapply List.Forall_impl; [|exact Hall]. intros l Hl. simpl in Hl.
      apply bool_decide_eq_false_1 in Hl.
      destruct (langs !! l) eqn:Hlook; [exfalso; apply Hl; eauto | reflexivity].
Qed.

End PreprocessingFacts.

Section LoopTraceFacts.
Context {World : Type} {SV : Services World}.

Lemma preprocessing_table (name : string)
    (f : args.t -> model -> tokenizer -> string -> M World string) :
  PREPROCESSING_FUNCTIONS !! name = Some f ->
  f = prepare_ctrl_input \/ f = prepare_xlm_input \/
  f = prepare_xlnet_input \/ f = prepare_transfoxl_input.
Proof.
  intros Hf. apply elem_of_list_to_map_2 in Hf.
  repeat (apply elem_of_cons in Hf; destruct Hf as [Hf|Hf];
          [injection Hf as Hname Hfun; subst f; tauto|]).
  now apply elem_of_nil in Hf.
Qed.

Lemma select_language_silent (langs : gmap string Z) (s : state World) r s' :
  select_language langs s = (r, s') -> trace s' = trace s.
Proof.
  unfold select_language. destruct (input_until _ _) as [r0 rest].
  intros H. now injection H as _ <-.
Qed.

(** The preparation functions emit nothing but the language choice. *)
Lemma prepare_input_emits (a : args.t) (m : model) (tok : tokenizer) (text : string)
    (f : args.t -> model -> tokenizer -> string -> M World string)
    (P : event -> Prop) :
  (forall id, P (EvSetLangId id)) ->
  f = prepare_ctrl_input \/ f = prepare_xlm_input \/
  f = prepare_xlnet_input \/ f = prepare_transfoxl_input ->
  emits (f a m tok text) P.
Proof.
  intros HP [-> | [-> | [-> | ->]]].
  - unfold prepare_ctrl_input. destruct (control_codes tok); [apply emits_ret|].
    apply emits_bind; [apply emits_lift | intros; apply emits_ret].
  - unfold prepare_xlm_input.
    destruct (lang2id m) as [langs|]; [|apply emits_ret].
    destruct (use_lang_emb m); [|apply emits_ret].
    apply emits_bind.
    + destruct (bool_decide _); [apply emits_ret|].
      apply emits_silent. apply select_language_silent.
    + intros language. destruct (langs !! language) as [id|]; [|apply emits_raise].
      apply emits_bind; [apply emits_update|]. intros _.
      apply emits_bind; [now apply emits_emit|]. intros _. apply emits_ret.
  - apply emits_ret.
  - apply emits_ret.
Qed.

Lemma tokenize_prompt_emits (c : run) (P : event -> Prop) :
  (forall id, P (EvSetLangId id)) -> emits (tokenize_prompt c) P.
Proof.
  intros HP. unfold tokenize_prompt.
  destruct (requires_preprocessing c); [|apply emits_ret].
  destruct (PREPROCESSING_FUNCTIONS !! run_model_type c) as [f|] eqn:Hf; [|apply emits_raise].
  apply emits_bind; [|intros; apply emits_ret].
  apply prepare_input_emits; [exact HP | now apply (preprocessing_table (run_model_type c))].
Qed.

Lemma reseed_emits (c : run) (P : event -> Prop) :
  (args.same_seed (run_args c) = true -> P (EvSetSeed (args.seed (run_args c)))) ->
  emits (reseed c) P.
Proof.
  intros HP. unfold reseed. destruct (args.same_seed (run_args c)); [|apply emits_ret].
  apply emits_bind; [apply emits_update|]. intros _. apply emits_emit. now apply HP.
Qed.

Lemma getitem_first {A} (l : list A) (x : A) :
  Py.getitem l 0 = Ok x -> exists rest, l = x :: rest.
Proof.
  unfold Py.getitem. simpl. destruct l as [|y rest]; simpl; [discriminate|].
  intros H. injection H as ->. eauto.
Qed.

Lemma measure_emits (c : run) (i : Z) (start_time : float) (row : list Z) :
  emits (measure c i start_time [row]) (loop_event (run_args c) (run_use_cache c)).
Proof.
  unfold measure.
  apply emits_bind; [apply emits_lift|]. intros row0.
  apply emits_bind; [apply reseed_emits; simpl; auto|]. intros _.
  apply emits_bind.
  - apply emits_emit. simpl. repeat split.
    unfold input_ids_of. simpl size_last.
    destruct (Z.eqb_spec (Py.len row) 0) as [Hz|Hnz]; [exact I|].
    exists row. split; [reflexivity|]. intros ->. now apply Hnz.
  - intros _. apply emits_bind; [apply emits_call|]. intros out.
    apply emits_bind; [apply emits_call_total|]. intros t1. apply emits_lift.
Qed.

Lemma iteration_emits (c : run) (i : Z) :
  emits (iteration c i) (loop_event (run_args c) (run_use_cache c)).
Proof.
  unfold iteration.
  apply emits_bind; [apply emits_call_total|]. intros t0.
  apply emits_bind_ok; [apply tokenize_prompt_emits; intros; exact I|].
  intros enc s s1 Htok. apply tokenize_prompt_one_row in Htok.
  destruct Htok as (row & ->). apply measure_emits.
Qed.

Lemma for_each_emits (body : Z -> M World rec.t) (P : event -> Prop) (indices : list Z) :
  (forall i, emits (body i) P) ->
  forall records, emits (for_each body indices records) P.
Proof.
  intros Hbody. induction indices as [|i rest IH]; intros records; simpl.
  - apply emits_ret.
  - apply emits_bind; [apply Hbody|]. intros r. apply IH.
Qed.

Lemma benchmark_loop_emits (c : run) :
  emits (benchmark_loop c) (loop_event (run_args c) (run_use_cache c)).
Proof. unfold benchmark_loop. apply for_each_emits. apply iteration_emits. Qed.

(** A successful measurement, with its parts named. *)
Lemma measure_parts (c : run) (i : Z) (start_time : float) (row : list Z)
    (s : state World) (r : rec.t) (s' : state World) :
  measure c i start_time [row] s = (Ok r, s') ->
  exists end_time output_sequences seed_events,
    row <> [] /\
    populate_record c i start_time end_time (Some [row])
      (run_length c + Py.len row) output_sequences
      (map (total_sequence c row) output_sequences) = Ok r /\
    trace s' = (trace s ++ seed_events ++
                [EvGenerate (generate_kwargs c (Some [row]) (run_length c + Py.len row))])%list /\
    Forall (fun e => is_generate_event e = false) seed_events.
Proof.
  unfold measure. intros H.
  invert_bind H.
  match goal with Hget : lift _ _ = _ |- _ =>
    apply lift_ok in Hget; destruct Hget as [Hrow ->]; injection Hrow as <-
  end.
  invert_bind H. invert_bind H. invert_bind H. invert_bind H.
  apply lift_ok in H. destruct H as [Hrec ->].
  assert (Hne : row <> []).
  { intros ->. unfold input_ids_of in Hrec. simpl in Hrec. discriminate. }
  assert (Hids : input_ids_of [row] = Some [row]).
  { unfold input_ids_of. simpl size_last.
    destruct (Z.eqb_spec (Py.len row) 0) as [Hz|_]; [|reflexivity].
    destruct row; [congruence | unfold Py.len in Hz; simpl in Hz; lia]. }
  rewrite Hids in *.
  match goal with Hseed : reseed c _ = _ |- _ =>
    destruct (reseed_emits c (fun e => is_generate_event e = false) (fun _ => eq_refl)
                _ _ _ Hseed) as (seed_events & Htrace & Hquiet)
  end.
  match goal with
  | Hclock : call_total _ _ = (Ok ?t1, _), Hcall : call _ _ = (Ok ?out, _) |- _ =>
      exists t1, out, seed_events
  end.
  split; [exact Hne|]. split; [exact Hrec|]. split; [|exact Hquiet].
  repeat match goal with
  | Hemit : emit _ _ = _ |- _ => unfold emit in Hemit; injection Hemit as _ <-
  | Hcall : call _ _ = _ |- _ =>
      unfold call in Hcall; destruct (generate _ _ _) as [r0 w]; injection Hcall as _ <-
  | Hclock : call_total _ _ = _ |- _ =>
      unfold call_total in Hclock; destruct (time_time _) as [t w']; injection Hclock as _ <-
  end.
  simpl. rewrite Htrace. now rewrite <- app_assoc.
Qed.

Lemma iteration_parts (c : run) (i : Z) (s : state World) (r : rec.t) (s' : state World) :
  iteration c i s = (Ok r, s') ->
  exists row start_time end_time output_sequences quiet_events,
    row <> [] /\
    populate_record c i start_time end_time (Some [row])
      (run_length c + Py.len row) output_sequences
      (map (total_sequence c row) output_sequences) = Ok r /\
    trace s' = (trace s ++ quiet_events ++
                [EvGenerate (generate_kwargs c (Some [row]) (run_length c + Py.len row))])%list /\
    Forall (fun e => is_generate_event e = false) quiet_events.
Proof.
  unfold iteration. intros H. invert_bind H. invert_bind H.
  match goal with Htok : tokenize_prompt c _ = (Ok ?enc, _) |- _ =>
    pose proof (tokenize_prompt_one_row _ _ _ _ Htok) as (row & ->);
    destruct (tokenize_prompt_emits c (fun e => is_generate_event e = false)
                (fun _ => eq_refl) _ _ _ Htok) as (tok_events & Htoktrace & Htokquiet)
  end.
  apply measure_parts in H.
  destruct H as (t1 & out & seed_events & Hne & Hrec & Htrace & Hquiet).
  match goal with Hclock : call_total _ s = (Ok ?t0, _) |- _ =>
    exists row, t0, t1, out, (tok_events ++ seed_events)%list
  end.
  split; [exact Hne|]. split; [exact Hrec|]. split.
  - match goal with Hclock : call_total _ _ = _ |- _ =>
      unfold call_total in Hclock; destruct (time_time _) as [t w]; injection Hclock as _ <-
    end.
    rewrite Htrace, Htoktrace. simpl. now rewrite <- !app_assoc.
  - apply Forall_app. now split.
Qed.

End LoopTraceFacts.

(* ===================================================================== *)
(** * Further properties: the records and the calls of the loop *)
(* ===================================================================== *)

Section LoopExtras.
Context {World : Type} {SV : Services World}.

Lemma sum_from (l : list Z) (acc : Z) : fold_left Z.add l acc = acc + Py.sum l.
Proof.
  unfold Py.sum. revert acc. induction l as [|x l IH]; intros acc; simpl; [lia|].
  rewrite (IH (acc + x)), (IH (0 + x)). lia.
Qed.

Lemma sum_of_lengths_nonneg {A} (rows : list (list A)) : 0 <= Py.sum (map Py.len rows).
Proof.
  induction rows as [|row rows IH]; [unfold Py.sum; simpl; lia|].
  unfold Py.sum. simpl. rewrite sum_from. unfold Py.len at 1. lia.
Qed.

Lemma populate_record_value (c : run) (i : Z) (start_time end_time : float)
    (ids : tensor) (max_length : Z) (output_sequences : tensor)
    (generated_sequences : list string) (r : rec.t) :
  populate_record c i start_time end_time (Some ids) max_length
    output_sequences generated_sequences = Ok r ->
  rec.input_lengths r = map Py.len ids /\
  rec.output_lengths r = map Py.len output_sequences /\
  rec.total_tokens r = Py.sum (map Py.len output_sequences) /\
  rec.batch_size r = Py.len output_sequences /\
  rec.max_length r = max_length /\
  rec.max_new_tokens r = args.max_new_tokens (run_args c) /\
  rec.min_new_tokens r = args.min_new_tokens (run_args c) /\
  rec.sequences r =
    (if args.output_sequences (run_args c)
     then Some (ids, output_sequences, generated_sequences) else None).
Proof.
  unfold populate_record. simpl.
  destruct (Py.truediv_int_float _ _) as [q|e]; simpl; [|discriminate].
  intros H. injection H as <-. simpl. repeat split.
Qed.

(** X8: in every record of a completed loop the fields agree with each
    other: one positive input length, [max_length] equal to the adjusted
    length plus that input length, [batch_size] and [total_tokens] the
    number and the sum of the output lengths, and the sequences present
    exactly under [--output_sequences], with the recorded lengths. *)
Theorem X8_record_fields_are_consistent (c : run) (s : state World)
    (records : list rec.t) (s' : state World) (r : rec.t) :
  benchmark_loop c s = (Ok records, s') ->
  In r records ->
  exists n,
    0 < n /\
    rec.input_lengths r = [n] /\
    rec.max_length r = run_length c + n /\
    rec.batch_size r = Py.len (rec.output_lengths r) /\
    rec.total_tokens r = Py.sum (rec.output_lengths r) /\
    0 <= rec.total_tokens r /\
    rec.max_new_tokens r = args.max_new_tokens (run_args c) /\
    rec.min_new_tokens r = args.min_new_tokens (run_args c) /\
    match rec.sequences r with
    | None => args.output_sequences (run_args c) = false
    | Some (input_sequences, output_sequences, outputs) =>
        args.output_sequences (run_args c) = true /\
        map Py.len input_sequences = rec.input_lengths r /\
        map Py.len output_sequences = rec.output_lengths r /\
        Py.len outputs = rec.batch_size r
    end.
Proof.
  intros Hrun Hin.
  destruct (loop_record_in _ _ _ _ _ Hrun Hin) as (i & s1 & s2 & Hr).
  apply iteration_parts in Hr.
  destruct Hr as (row & t0 & t1 & out & quiet & Hne & Hrec & _).
  apply populate_record_value in Hrec.
  destruct Hrec as (Hin_len & Hout_len & Htotal & Hbatch & Hmax & Hnew & Hmin & Hseq).
  exists (Py.len row). simpl in Hin_len.
  split. { destruct row; [congruence | unfold Py.len; simpl; lia]. }
  split; [exact Hin_len|]. split; [exact Hmax|].
  split. { rewrite Hbatch, Hout_len. unfold Py.len. now rewrite length_map. }
  split. { now rewrite Htotal, Hout_len. }
  split. { rewrite Htotal. apply sum_of_lengths_nonneg. }
  split; [exact Hnew|]. split; [exact Hmin|].
  rewrite Hseq. destruct (args.output_sequences (run_args c)); [|reflexivity].
  split; [reflexivity|]. split; [now rewrite Hin_len|]. split; [now rewrite Hout_len|].
  rewrite Hbatch. unfold Py.len. now rewrite length_map.
Qed.

Lemma for_each_raise (body : Z -> M World rec.t) (indices : list Z) :
  forall records s e s',
    for_each body indices records s = (Raise e, s') ->
    exists before i after done s1,
      indices = (before ++ i :: after)%list /\
      for_each body before records s = (Ok done, s1) /\
      body i s1 = (Raise e, s').
Proof.
  induction indices as [|i rest IH]; intros records s e s' Hrun; simpl in Hrun.
  - discriminate.
  - unfold bind in Hrun. destruct (body i s) as [[r|e0] s1] eqn:Hbody.
    + apply IH in Hrun.
      destruct Hrun as (before & j & after & done & s2 & -> & Hdone & Hfail).
      exists (i :: before), j, after, done, s2.
      split; [reflexivity|]. split; [|exact Hfail].
      simpl. unfold bind. now rewrite Hbody.
    + injection Hrun as <- <-.
      exists [], i, rest, records, s. split; [reflexivity|]. split; [reflexivity | exact Hbody].
Qed.

Lemma range_prefix (n : Z) (before after : list Z) (i : Z) :
  Py.range n = (before ++ i :: after)%list ->
  before = Py.range i /\ 0 <= i < n.
Proof.
  unfold Py.range. intros Hsplit.
  assert (Hlen : (List.length before < Z.to_nat n)%nat).
  { apply (f_equal (@List.length Z)) in Hsplit.
    rewrite length_map, length_seq, length_app in Hsplit. simpl in Hsplit. lia. }
  assert (Hi : i = Z.of_nat (List.length before)).
  { apply (f_equal (fun l => nth_error l (List.length before))) in Hsplit.
    rewrite nth_error_app2, Nat.sub_diag in Hsplit by lia. simpl in Hsplit.
    rewrite nth_error_map, nth_error_seq in Hsplit.
    destruct (Nat.ltb_spec (List.length before) (Z.to_nat n)) as [_|Hge]; [|lia].
    simpl in Hsplit. now injection Hsplit as <-. }
  split; [|lia].
  replace (Z.to_nat n) with (List.length before + (Z.to_nat n - List.length before))%nat
    in Hsplit by lia.
  rewrite seq_app, map_app in Hsplit.
  apply app_inj_1 in Hsplit; [|now rewrite length_map, length_seq].
  destruct Hsplit as [Hbefore _]. rewrite <- Hbefore, Hi, Nat2Z.id. reflexivity.
Qed.

(** X9: a loop that raises stopped at its first failing iteration [i]:
    run from the loop's initial state, the iterations [0 .. i-1] complete,
    one record each, and iteration [i], run in the state they leave, raises
    the loop's exception and leaves the loop's final state; no record is
    returned. *)
Theorem X9_loop_stops_at_first_failure (c : run) (s : state World) (e : exn)
    (s' : state World) :
  benchmark_loop c s = (Raise e, s') ->
  exists i done s1,
    0 <= i < args.n_warmup_runs (run_args c) + args.n_runs (run_args c) /\
    for_each (iteration c) (Py.range i) [] s = (Ok done, s1) /\
    Py.len done = i /\
    iteration c i s1 = (Raise e, s').
Proof.
  unfold benchmark_loop. intros Hrun. apply for_each_raise in Hrun.
  destruct Hrun as (before & i & after & done & s1 & Hsplit & Hdone & Hfail).
  apply range_prefix in Hsplit. destruct Hsplit as [-> Hi].
  exists i, done, s1. split; [exact Hi|]. split; [exact Hdone|]. split; [|exact Hfail].
  apply for_each_ok in Hdone. destruct Hdone as (news & -> & Hnews).
  apply Forall2_length in Hnews. unfold Py.len, Py.range in *.
  rewrite length_map, length_seq in Hnews. simpl. lia.
Qed.

End LoopExtras.

Section CallFacts.
Context {World : Type} {SV : Services World}.

Lemma filter_one_call (quiet : list event) (e : event) :
  Forall (fun ev => is_generate_event ev = false) quiet ->
  is_generate_event e = true ->
  List.filter is_generate_event (quiet ++ [e]) = [e].
Proof.
  intros Hquiet He. rewrite List.filter_app, (filter_nothing _ _ Hquiet).
  simpl. now rewrite He.
Qed.

Lemma for_each_calls (c : run) (indices : list Z) :
  forall records s out s',
    for_each (iteration c) indices records s = (Ok out, s') ->
    exists fresh events,
      out = (records ++ fresh)%list /\
      trace s' = (trace s ++ events)%list /\
      Forall2 (fun e r =>
                 exists row,
                   row <> [] /\
                   e = EvGenerate (generate_kwargs c (Some [row]) (rec.max_length r)) /\
                   rec.input_lengths r = [Py.len row] /\
                   rec.max_length r = run_length c + Py.len row)
              (List.filter is_generate_event events) fresh.
Proof.
  induction indices as [|i rest IH]; intros records s out s' Hrun; simpl in Hrun.
  - injection Hrun as <- <-. exists [], []. rewrite !app_nil_r. repeat split. constructor.
  - invert_bind Hrun.
    apply IH in Hrun. destruct Hrun as (fresh & events & -> & Htrace & Hcalls).
    match goal with Hit : iteration c i s = _ |- _ => apply iteration_parts in Hit;
      destruct Hit as (row & t0 & t1 & outs & quiet & Hne & Hrec & Hstep & Hquiet) end.
    apply populate_record_value in Hrec.
    destruct Hrec as (Hin_len & _ & _ & _ & Hmax & _).
    eexists (_ :: fresh), (quiet ++ [_] ++ events)%list.
    split; [now rewrite <- app_assoc|]. split.
    + rewrite Htrace, Hstep. now rewrite <- !app_assoc.
    + rewrite app_assoc, List.filter_app, filter_one_call by (auto; reflexivity).
      simpl. constructor; [|exact Hcalls].
      exists row. rewrite Hmax. repeat split; auto.
Qed.


(** X11: for CTRL, a prompt that encodes to no token while the tokenizer
    has control codes stops the iteration in the preparation, with
    [IndexError]: the clock has been read, [generate] is not called. *)
Theorem X11_ctrl_empty_prompt_fails_before_generate (c : run) (i : Z) (s : state World) :
  requires_preprocessing c = true ->
  run_model_type c = "ctrl" ->
  control_codes (run_tokenizer c) <> [] ->
  tok_encode (run_tokenizer c) false (run_prompt_text c) = [] ->
  iteration c i s =
    (Raise (IndexError "list index out of range"),
     mkState (snd (time_time (world s))) (stdin s) (trace s)).
Proof.
  intros Hpre Htype Hcodes Hempty. unfold iteration, tokenize_prompt.
  rewrite Hpre, Htype.
  change (PREPROCESSING_FUNCTIONS !! "ctrl") with (Some (prepare_ctrl_input (World := World))).
  unfold prepare_ctrl_input. rewrite Hempty.
  destruct (control_codes (run_tokenizer c)); [congruence|].
  unfold bind, call_total. destruct (time_time (world s)) as [t w]. reflexivity.
Qed.

End CallFacts.

Section TokenizedText.
Context {World : Type} {SV : Services World}.

Lemma preprocessing_table_names (name : string)
    (f : args.t -> model -> tokenizer -> string -> M World string) :
  PREPROCESSING_FUNCTIONS !! name = Some f ->
  (name = "ctrl" /\ f = prepare_ctrl_input) \/
  (name = "xlm" /\ f = prepare_xlm_input) \/
  (name = "xlnet" /\ f = prepare_xlnet_input) \/
  (name = "transfo-xl" /\ f = prepare_transfoxl_input).
Proof.
  intros Hf. apply elem_of_list_to_map_2 in Hf.
  repeat (apply elem_of_cons in Hf; destruct Hf as [Hf|Hf];
          [injection Hf as Hname Hfun; subst; tauto|]).
  now apply elem_of_nil in Hf.
Qed.

(** X19: the text that is tokenized always ends with the raw prompt.  For
    XLNet and Transformer-XL it starts with [--prefix], else
    [--padding_text], else the built-in passage, so it is never empty; for
    CTRL and XLM nothing is put in front, whatever [--prefix] says; for the
    other families [--prefix], else [--padding_text], is put in front.
    Only the Transformer-XL class asks for spaces before punctuation. *)
Theorem X19_text_handed_to_the_tokenizer (c : run) (s : state World)
    (encoded_prompt : tensor) (s' : state World) :
  tokenize_prompt c s = (Ok encoded_prompt, s') ->
  let a := run_args c in
  let front :=
    if requires_preprocessing c then
      if (String.eqb (run_model_type c) "xlnet"
          || String.eqb (run_model_type c) "transfo-xl")%bool
      then (if Py.str_truthy (args.prefix a) then args.prefix a
            else if Py.str_truthy (args.padding_text a) then args.padding_text a
            else PREFIX)
      else ""
    else (if Py.str_truthy (args.prefix a) then args.prefix a else args.padding_text a) in
  encoded_prompt =
    [tok_encode (run_tokenizer c)
       (requires_preprocessing c
        && String.eqb (class_name (run_model c)) "TransfoXLLMHeadModel")%bool
       (String.append front (run_prompt_text c))] /\
  ((String.eqb (run_model_type c) "xlnet"
    || String.eqb (run_model_type c) "transfo-xl")%bool = true ->
   requires_preprocessing c = true -> Py.str_truthy front = true).
Proof.
  unfold tokenize_prompt, encode_pt. intros H. cbv zeta.
  destruct (requires_preprocessing c); simpl andb.
  2:{ injection H as <- _. split; [reflexivity | discriminate]. }
  destruct (PREPROCESSING_FUNCTIONS !! run_model_type c) as [f|] eqn:Hf; [|discriminate].
  apply preprocessing_table_names in Hf.
  invert_bind H. injection H as <- _.
  destruct Hf as [[Hn ->]|[[Hn ->]|[[Hn ->]|[Hn ->]]]]; rewrite Hn; simpl.
  - split; [|discriminate]. do 2 f_equal.
    unfold prepare_ctrl_input in Hc. destruct (control_codes _).
    + now injection Hc as <- _.
    + invert_bind Hc. now injection Hc as <- _.
  - split; [|discriminate]. do 2 f_equal.
    match goal with Hx : prepare_xlm_input _ _ _ _ _ = _ |- _ =>
      apply (xlm_prompt_unchanged _ _ _ _ _ _ _ Hx) end.
  - unfold prepare_xlnet_input, choose_prefix in Hc. injection Hc as <- _.
    split; [reflexivity|]. intros _ _.
    destruct (Py.str_truthy (args.prefix (run_args c))) eqn:H1; [exact H1|].
    destruct (Py.str_truthy (args.padding_text (run_args c))) eqn:H2; [exact H2 | reflexivity].
  - unfold prepare_transfoxl_input, choose_prefix in Hc. injection Hc as <- _.
    split; [reflexivity|]. intros _ _.
    destruct (Py.str_truthy (args.prefix (run_args c))) eqn:H1; [exact H1|].
    destruct (Py.str_truthy (args.padding_text (run_args c))) eqn:H2; [exact H2 | reflexivity].
Qed.

End TokenizedText.


(* ===================================================================== *)
(** * Further properties: the runs of main *)
(* ===================================================================== *)

Section MainFacts.
Context {World : Type} {SV : Services World}.

(** X12: a preset prompt that names no file stops [main] with [ValueError]
    before anything else happens: no seed is set, nothing is loaded, and
    the state is the one [main] started from. *)
Theorem X12_missing_preset_prompt_stops_first (a : args.t) (name : string)
    (s : state World) :
  args.preset_prompt a = Some name ->
  Py.str_truthy name = true ->
  read_file (prompt_file_path name) (world s) = None ->
  main a s =
    (Raise (ValueError (String.append "Prompt file does not exist: "
                          (prompt_file_path name))), s).
Proof.
  intros Hpreset Hname Hfile. unfold main, load_prompt.
  rewrite Hpreset, Hname. unfold bind, ask. now rewrite Hfile.
Qed.

Lemma initialize_loads (a : args.t) (dtype : torch_dtype) (s : state World)
    model_type tok m s' :
  initialize a dtype s = (Ok (model_type, tok, m), s') ->
  exists model_class tokenizer_class,
    lookup_model_classes (args.model_type a) = Ok (model_type, (model_class, tokenizer_class)) /\
    trace s' =
      (trace s ++
       [EvTokenizerFromPretrained tokenizer_class (args.model_name_or_path a);
        EvModelFromPretrained model_class (args.model_name_or_path a) dtype
          (args.cache_dir a)])%list.
Proof.
  unfold initialize. intros H. invert_bind H.
  match goal with Hl : lift _ _ = _ |- _ => apply lift_ok in Hl; destruct Hl as [Hlookup ->] end.
  match goal with x : (string * (model_class * tokenizer_class))%type |- _ =>
    destruct x as [mt [mc tc]] end.
  do 4 invert_bind H. injection H as <- <- <- <-.
  exists mc, tc. split; [exact Hlookup|].
  repeat match goal with
  | Hemit : emit _ _ = _ |- _ => unfold emit in Hemit; injection Hemit as _ <-
  | Hcall : call ?f _ = _ |- _ =>
      unfold call in Hcall; simpl in Hcall; destruct (f _) as [? ?];
      injection Hcall as _ <-
  end.
  simpl. rewrite <- ?app_assoc. reflexivity.
Qed.

Lemma initialize_emits (a : args.t) (dtype : torch_dtype) (P : event -> Prop) :
  (forall e, is_load_event e = true -> P e) -> emits (initialize a dtype) P.
Proof.
  intros HP. unfold initialize.
  apply emits_bind; [apply emits_lift|]. intros [mt [mc tc]].
  apply emits_bind; [apply emits_emit; now apply HP|]. intros _.
  apply emits_bind; [apply emits_call|]. intros tok.
  apply emits_bind; [apply emits_emit; now apply HP|]. intros _.
  apply emits_bind; [apply emits_call|]. intros m. apply emits_ret.
Qed.

Lemma load_prompt_emits (a : args.t) (P : event -> Prop) : emits (load_prompt a) P.
Proof.
  apply emits_silent. intros s r s' H.
  now rewrite (load_prompt_keeps_state _ _ _ _ H).
Qed.

(** When [bind c k] raises: [c] appends events satisfying [P], and what
    the rest appends satisfies [Q], which may be preceded by such events. *)
Lemma raising_bind {A B} (c : M World A) (k : A -> M World B)
    (P : event -> Prop) (Q : list event -> Prop) s e s' :
  emits c P ->
  (forall events, Forall P events -> Q events) ->
  (forall quiet more, Forall P quiet -> Q more -> Q (quiet ++ more)%list) ->
  (forall a s1,
     c s = (Ok a, s1) -> k a s1 = (Raise e, s') ->
     exists more, trace s' = (trace s1 ++ more)%list /\ Q more) ->
  bind c k s = (Raise e, s') ->
  exists events, trace s' = (trace s ++ events)%list /\ Q events.
Proof.
  intros Hc Hquiet Hprefix Hk Hrun. unfold bind in Hrun.
  destruct (c s) as [[a|e0] s1] eqn:Hcs.
  - destruct (Hc _ _ _ Hcs) as (ev1 & Ht1 & Hall1).
    destruct (Hk a s1 eq_refl Hrun) as (more & Ht2 & Hmore).
    exists (ev1 ++ more)%list. split; [now rewrite Ht2, Ht1, app_assoc|].
    now apply Hprefix.
  - injection Hrun as <- <-.
    destruct (Hc _ _ _ Hcs) as (ev1 & Ht1 & Hall1). eauto.
Qed.

(** X13: the output files are opened only after the loop and the metrics
    have succeeded.  A run of [main] that raises has appended no dump
    event, unless the exception comes from writing the records, the record
    dump being the last event, or from writing the metrics, both dumps
    being the last events. *)
Theorem X13_failed_run_dumps_only_after_metrics (a : args.t) (s : state World)
    (e : exn) (s' : state World) :
  main a s = (Raise e, s') ->
  exists events,
    trace s' = (trace s ++ events)%list /\
    (Forall (fun ev => is_dump_event ev = false) events \/
     exists quiet records metrics w,
       Forall (fun ev => is_dump_event ev = false) quiet /\
       populate_metrics records = Ok metrics /\
       ((events = (quiet ++ [EvDumpRecords (args.records_file a) records])%list /\
         fst (dump_records (args.records_file a) records w) = Raise e) \/
        (events = (quiet ++ [EvDumpRecords (args.records_file a) records;
                             EvDumpMetrics (args.metrics_file a) metrics])%list /\
         fst (dump_records (args.records_file a) records w) = Ok tt /\
         fst (dump_metrics (args.metrics_file a) metrics
                (snd (dump_records (args.records_file a) records w))) = Raise e))).
Proof.
  set (P := fun ev => is_dump_event ev = false).
  set (Q := fun events : list event =>
    Forall P events \/
    exists quiet records metrics w,
      Forall P quiet /\
      populate_metrics records = Ok metrics /\
      ((events = (quiet ++ [EvDumpRecords (args.records_file a) records])%list /\
        fst (dump_records (args.records_file a) records w) = Raise e) \/
       (events = (quiet ++ [EvDumpRecords (args.records_file a) records;
                            EvDumpMetrics (args.metrics_file a) metrics])%list /\
        fst (dump_records (args.records_file a) records w) = Ok tt /\
        fst (dump_metrics (args.metrics_file a) metrics
               (snd (dump_records (args.records_file a) records w))) = Raise e))).
  assert (Hquiet : forall events, Forall P events -> Q events) by (intros; now left).
  assert (Hprefix : forall quiet more, Forall P quiet -> Q more -> Q (quiet ++ more)%list).
  { intros quiet more Hq [Hmore|(q2 & records & metrics & w & Hq2 & Hm & Hcase)].
    - left. apply Forall_app. now split.
    - right. exists (quiet ++ q2)%list, records, metrics, w.
      split; [apply Forall_app; now split|]. split; [exact Hm|].
      destruct Hcase as [[-> Hw]|[-> Hw]]; [left | right];
        (split; [now rewrite app_assoc | exact Hw]). }
  assert (Hloop : forall c, emits (World := World) (benchmark_loop c) P).
  { intros c. eapply emits_weaken; [|apply benchmark_loop_emits].
    intros [] He; simpl in He; try contradiction; reflexivity. }
  unfold main. intros Hrun.
  refine (raising_bind _ _ P Q _ _ _ _ Hquiet Hprefix _ Hrun); [apply load_prompt_emits|].
  clear Hrun. intros prompt s1 _ Hrun.
  refine (raising_bind _ _ P Q _ _ _ _ Hquiet Hprefix _ Hrun); [apply emits_update|].
  clear Hrun. intros [] s2 _ Hrun.
  refine (raising_bind _ _ P Q _ _ _ _ Hquiet Hprefix _ Hrun);
    [apply emits_emit; reflexivity|].
  clear Hrun. intros [] s3 _ Hrun.
  refine (raising_bind _ _ P Q _ _ _ _ Hquiet Hprefix _ Hrun);
    [apply initialize_emits; intros [] He; try discriminate He; reflexivity|].
  clear Hrun. intros [[mt tok] m] s4 _ Hrun.
  refine (raising_bind _ _ P Q _ _ _ _ Hquiet Hprefix _ Hrun).
  { destruct (args.jit a); [|apply emits_ret].
    apply emits_bind; [apply emits_emit; reflexivity | intros; apply emits_call]. }
  clear Hrun. intros m' s5 _ Hrun.
  refine (raising_bind _ _ P Q _ _ _ _ Hquiet Hprefix _ Hrun).
  { destruct (Py.str_truthy prompt); [apply emits_ret | apply emits_input]. }
  clear Hrun. intros prompt_text s6 _ Hrun.
  refine (raising_bind _ _ P Q _ _ _ _ Hquiet Hprefix _ Hrun); [apply Hloop|].
  clear Hrun. intros records s7 _ Hrun.
  refine (raising_bind _ _ P Q _ _ _ _ Hquiet Hprefix _ Hrun); [apply emits_lift|].
  clear Hrun. intros metrics s8 Hmetrics Hrun.
  apply lift_ok in Hmetrics. destruct Hmetrics as [Hmetrics _].
  unfold bind, emit, call, ret in Hrun. simpl in Hrun.
  destruct (dump_records (args.records_file a) records (world s8))
    as [[[]|e1] w1] eqn:Hwrite1.
  - simpl in Hrun.
    destruct (dump_metrics (args.metrics_file a) metrics w1) as [[[]|e2] w2] eqn:Hwrite2;
      simpl in Hrun; [discriminate Hrun|].
    injection Hrun as <- <-.
    exists [EvDumpRecords (args.records_file a) records;
            EvDumpMetrics (args.metrics_file a) metrics].
    split; [simpl; now rewrite <- app_assoc|].
    right. exists [], records, metrics, (world s8).
    split; [constructor|]. split; [exact Hmetrics|]. right.
    split; [reflexivity|]. rewrite Hwrite1. simpl. split; [reflexivity|].
    now rewrite Hwrite2.
  - simpl in Hrun. injection Hrun as <- <-. eexists. split; [reflexivity|].
    right. exists [], records, metrics, (world s8).
    split; [constructor|]. split; [exact Hmetrics|]. left.
    split; [reflexivity|]. now rewrite Hwrite1.
Qed.

(** X14: the trace of a run of [main] that returns: the seed, the
    tokenizer load, the model load with the classes of the table and the
    dtype of the command line, the tracing if asked for, the events of the
    loop with one [generate] call per returned record, then the dump of the
    returned records and the dump of their metrics. *)
Theorem X14_trace_of_a_successful_run (a : args.t) (s : state World)
    (records : list rec.t) (s' : state World) :
  main a s = (Ok records, s') ->
  exists model_type model_class tokenizer_class loop_events metrics,
    lookup_model_classes (args.model_type a)
      = Ok (model_type, (model_class, tokenizer_class)) /\
    populate_metrics records = Ok metrics /\
    trace s' =
      (trace s ++
       [EvSetSeed (args.seed a);
        EvTokenizerFromPretrained tokenizer_class (args.model_name_or_path a);
        EvModelFromPretrained model_class (args.model_name_or_path a)
          (set_torch_dtype (args.torch_dtype a)) (args.cache_dir a)] ++
       (if args.jit a then [EvJitTrace] else []) ++
       loop_events ++
       [EvDumpRecords (args.records_file a) records;
        EvDumpMetrics (args.metrics_file a) metrics])%list /\
    Forall (loop_event a (set_use_cache (args.use_cache a))) loop_events /\
    List.length (List.filter is_generate_event loop_events) = List.length records.
Proof.
  unfold main. intros Hrun.
  invert_bind Hrun.
  match goal with Hp : load_prompt a s = _ |- _ =>
    pose proof (load_prompt_keeps_state _ _ _ _ Hp) as -> end.
  invert_bind Hrun.
  match goal with Hu : update _ s = _ |- _ => unfold update in Hu; injection Hu as _ <- end.
  invert_bind Hrun.
  match goal with Hemit : emit _ _ = _ |- _ => unfold emit in Hemit; injection Hemit as _ <- end.
  invert_bind Hrun.
  match goal with x : (string * tokenizer * model)%type |- _ => destruct x as [[mt tok] m] end.
  match goal with Hi : initialize _ _ _ = _ |- _ =>
    apply initialize_loads in Hi; destruct Hi as (mc & tc & Hlookup & Hloads) end.
  invert_bind Hrun.
  match goal with Hjit : (if args.jit a then _ else _) ?st = (Ok ?m', ?st') |- _ =>
    assert (Hjit_trace : trace st' = (trace st ++ (if args.jit a then [EvJitTrace] else []))%list);
    [ destruct (args.jit a);
      [ unfold bind, emit, call in Hjit; simpl in Hjit;
        destruct (jit_trace _ _ _) as [[mj|ej] wj]; [|discriminate];
        injection Hjit as _ <-; reflexivity
      | injection Hjit as _ <-; now rewrite app_nil_r ]
    | clear Hjit ]
  end.
  invert_bind Hrun.
  match goal with Hin : (if Py.str_truthy _ then _ else _) ?st = (Ok _, ?st') |- _ =>
    assert (Hin_trace : trace st' = trace st);
    [ destruct (Py.str_truthy _);
      [ injection Hin as _ <-; reflexivity
      | unfold input in Hin; destruct (stdin st); [discriminate|];
        injection Hin as _ <-; reflexivity ]
    | clear Hin ]
  end.
  invert_bind Hrun.
  match goal with Hloop : benchmark_loop ?c ?st = (Ok ?recs, ?st') |- _ =>
    destruct (benchmark_loop_emits c _ _ _ Hloop) as (loop_events & Hloop_trace & Hloop_events);
    unfold benchmark_loop in Hloop; apply for_each_calls in Hloop;
    destruct Hloop as (fresh & events & Hfresh & Hcalls_trace & Hcalls)
  end.
  invert_bind Hrun.
  match goal with Hm : lift _ _ = _ |- _ => apply lift_ok in Hm; destruct Hm as [Hmetrics ->] end.
  unfold bind, emit, call, ret in Hrun. simpl in Hrun.
  destruct (dump_records _ _ _) as [[[]|e1] w1]; [|discriminate].
  destruct (dump_metrics _ _ _) as [[[]|e2] w2]; [|discriminate].
  injection Hrun as <- <-.
  simpl in Hfresh. subst.
  rewrite Hloop_trace in Hcalls_trace. apply app_inv_head in Hcalls_trace. subst events.
  exists mt, mc, tc, loop_events. eexists.
  split; [exact Hlookup|]. split; [exact Hmetrics|]. split; [|split].
  - simpl. rewrite Hloop_trace, Hin_trace, Hjit_trace, Hloads. simpl.
    now rewrite <- !app_assoc.
  - exact Hloop_events.
  - now apply Forall2_length in Hcalls.
Qed.

End MainFacts.


(* ===================================================================== *)
(** * Further properties: the tracing helpers *)
(* ===================================================================== *)

Section TracingHelpers.

(** X15: [sparse_model_config] reads the embedding size from
    [hidden_size], else [n_embed], else [n_embd], the heads from
    [num_attention_heads], else [n_head], and the layers from [n_layer],
    else [num_hidden_layers].  It never returns zero heads; it raises
    "Check the model config" exactly when the embedding size or the heads
    are missing or the heads are zero, and otherwise fails only if the
    division overflows or no layer count is present. *)
Theorem X15_sparse_model_config_outcomes (model_config : config.t) :
  let embedding_size :=
    match config.hidden_size model_config, config.n_embed model_config with
    | Some v, _ => Some v
    | None, Some v => Some v
    | None, None => config.n_embd model_config
    end in
  let num_head :=
    match config.num_attention_heads model_config with
    | Some v => Some v
    | None => config.n_head model_config
    end in
  let num_layer :=
    match config.n_layer model_config with
    | Some v => Some v
    | None => config.num_hidden_layers model_config
    end in
  match sparse_model_config model_config with
  | Ok (layers, heads, per_head) =>
      heads <> 0 /\ num_head = Some heads /\ num_layer = Some layers /\
      exists size quotient,
        embedding_size = Some size /\
        PyNum.truediv_int_int size heads = Ok quotient /\
        PyNum.int_of_float quotient = Ok per_head
  | Raise e =>
      (e = ValueError "Check the model config" /\
       (embedding_size = None \/ num_head = None \/ num_head = Some 0)) \/
      (exists size heads,
         embedding_size = Some size /\ num_head = Some heads /\ heads <> 0 /\
         (result_bind (PyNum.truediv_int_int size heads) PyNum.int_of_float = Raise e \/
          (e = ValueError
                 "Number of hidden layers couldn't be determined from the model config" /\
           num_layer = None)))
  end.
Proof.
  unfold sparse_model_config. cbv zeta.
  destruct model_config as [hs ne nd nah nh nl nhl mt uc]; simpl.
  set (size := match hs with Some v => Some v | None => _ end). clearbody size.
  set (heads := match nah with Some v => Some v | None => nh end). clearbody heads.
  destruct size as [size|]; [|destruct heads; left; auto].
  destruct heads as [heads|]; [|left; auto].
  destruct (Z.eqb_spec heads 0) as [->|Hnz]; [left; auto|].
  destruct (PyNum.truediv_int_int size heads) as [q|e] eqn:Hdiv; simpl.
  - destruct (PyNum.int_of_float q) as [p|e] eqn:Hint; simpl.
    + destruct nl as [l|]; [|destruct nhl as [l|]].
      * repeat split; auto. exists size, q. auto.
      * repeat split; auto. exists size, q. auto.
      * right. exists size, heads. repeat split; auto.
    + right. exists size, heads. repeat split; auto.
      left. rewrite Hdiv. exact Hint.
  - right. exists size, heads. repeat split; auto.
    left. now rewrite Hdiv.
Qed.

End TracingHelpers.

Section CacheFacts.

Lemma collect_ok {A} (indices : list Z) (f : result A) (l : list A) :
  collect indices f = Ok l ->
  List.length l = List.length indices /\ Forall (fun x => f = Ok x) l.
Proof.
  revert l. induction indices as [|i rest IH]; intros l; simpl.
  - intros H. injection H as <-. split; [reflexivity | constructor].
  - destruct f as [x|e] eqn:Hf; simpl; [|discriminate].
    destruct (collect rest (Ok x)) as [xs|e]; simpl; [|discriminate].
    intros H. injection H as <-. destruct (IH xs eq_refl) as [Hlen Hall].
    split; [simpl; now rewrite Hlen | now constructor].
Qed.

Lemma torch_empty_ok (sizes out : shape) :
  torch_empty sizes = Ok out -> out = sizes /\ Forall (fun d => 0 <= d) sizes.
Proof.
  unfold torch_empty. destruct (forallb _ sizes) eqn:Hall; [|discriminate].
  intros H. injection H as <-. split; [reflexivity|].
  rewrite forallb_forall in Hall. apply List.Forall_forall. intros d Hd.
  apply Hall in Hd. lia.
Qed.

Lemma pair_of_empties (ks vs : shape) (kv : shape * shape) :
  result_bind (torch_empty ks) (fun key =>
  result_bind (torch_empty vs) (fun value => Ok (key, value))) = Ok kv ->
  kv = (ks, vs) /\ Forall (fun d => 0 <= d) ks /\ Forall (fun d => 0 <= d) vs.
Proof.
  destruct (torch_empty ks) as [k|e] eqn:Hk; [|discriminate].
  destruct (torch_empty vs) as [v|e] eqn:Hv; [|discriminate].
  simpl. intros H. injection H as <-.
  apply torch_empty_ok in Hk, Hv. destruct Hk as [-> Hk], Hv as [-> Hv]. auto.
Qed.

(** X16: a cache that is built has one (key, value) pair per layer, none
    for a layer count below one; all pairs have the same shapes, laid out
    for Bloom as (heads * batch, head size, length) and (heads * batch,
    length, head size) and otherwise as (batch, heads, length, head size)
    twice; no dimension is negative and, in both layouts, key and value
    hold batch * heads * length * head size elements each. *)
Theorem X16_past_key_values_shapes (model_config : config.t) (batch_size seq_len : Z)
    (cache : list (shape * shape)) :
  generate_past_key_values model_config batch_size seq_len = Ok cache ->
  exists layers heads per_head,
    sparse_model_config model_config = Ok (layers, heads, per_head) /\
    Py.len cache = Z.max layers 0 /\
    Forall (fun kv =>
              kv = (if String.eqb (config.model_type model_config) "bloom"
                    then ([heads * batch_size; per_head; seq_len],
                          [heads * batch_size; seq_len; per_head])
                    else ([batch_size; heads; seq_len; per_head],
                          [batch_size; heads; seq_len; per_head])) /\
              Forall (fun d => 0 <= d) (fst kv) /\
              Forall (fun d => 0 <= d) (snd kv) /\
              numel (fst kv) = batch_size * heads * seq_len * per_head /\
              numel (snd kv) = batch_size * heads * seq_len * per_head)
           cache.
Proof.
  unfold generate_past_key_values. intros H.
  destruct (sparse_model_config model_config) as [[[layers heads] per_head]|e];
    simpl in H; [|discriminate].
  exists layers, heads, per_head. split; [reflexivity|].
  destruct (String.eqb (config.model_type model_config) "bloom");
    apply collect_ok in H; destruct H as [Hlen Hall]; (split;
    [ unfold Py.len; rewrite Hlen; unfold Py.range; rewrite length_map, length_seq; lia
    | eapply List.Forall_impl; [|exact Hall]; intros kv Hkv;
      apply pair_of_empties in Hkv; destruct Hkv as (-> & Hk & Hv);
      simpl; repeat split; auto; unfold numel; simpl; lia ]).
Qed.

End CacheFacts.

Section WrapperFacts.

(** X17: the inputs prepared for tracing are the tokenizer's, except that
    every row of the attention mask gets a leading 0 and that, exactly when
    the model uses its cache, a cache of length 1 for the batch is put
    under [past_key_values]. *)
Theorem X17_prepare_jit_inputs_extends_mask
    (batch_encode_plus : list string -> gmap string pyval)
    (inputs : list string) (model_config : config.t) (out : gmap string pyval) :
  prepare_jit_inputs batch_encode_plus inputs model_config = Ok out ->
  exists attention_mask,
    batch_encode_plus inputs !! "attention_mask" = Some (VTensor attention_mask) /\
    out !! "attention_mask" = Some (VTensor (map (cons 0) attention_mask)) /\
    (forall key, key <> "attention_mask" -> key <> "past_key_values" ->
       out !! key = batch_encode_plus inputs !! key) /\
    (if config.use_cache model_config
     then exists cache,
            generate_past_key_values model_config (Py.len inputs) 1 = Ok cache /\
            out !! "past_key_values" = Some (VPast cache)
     else out !! "past_key_values" = batch_encode_plus inputs !! "past_key_values").
Proof.
  unfold prepare_jit_inputs. intros H.
  destruct (config.use_cache model_config).
  - destruct (generate_past_key_values model_config (Py.len inputs) 1) as [cache|e];
      simpl in H; [|discriminate].
    rewrite lookup_insert_ne in H by discriminate.
    destruct (batch_encode_plus inputs !! "attention_mask") as [[| | |mask|]|] eqn:Hmask;
      try discriminate.
    injection H as <-. exists mask. split; [reflexivity|].
    split; [now rewrite lookup_insert_eq|]. split.
    + intros key Hk1 Hk2. now rewrite !lookup_insert_ne by congruence.
    + exists cache. split; [reflexivity|].
      rewrite lookup_insert_ne by discriminate. now rewrite lookup_insert_eq.
  - simpl in H.
    destruct (batch_encode_plus inputs !! "attention_mask") as [[| | |mask|]|] eqn:Hmask;
      try discriminate.
    injection H as <-. exists mask. split; [reflexivity|].
    split; [now rewrite lookup_insert_eq|]. split.
    + intros key Hk1 Hk2. now rewrite lookup_insert_ne by congruence.
    + now rewrite lookup_insert_ne by discriminate.
Qed.

(** X18: the wrapper fails before calling the traced model, with the same
    error whatever that model is, or calls it once with cleaned keyword
    arguments: no [position_ids], no value that is [None] or a boolean,
    every other argument as given, and, when the cache is used and none
    was given, a fresh cache of length 0 for the rows of [input_ids].  A
    missing [past_key_values] argument is a [KeyError]. *)
Theorem X18_fallback_call_cleans_kwargs (default_config : config.t)
    (kwargs : gmap string pyval) :
  (exists e,
     (forall optimized, fallback_call optimized default_config kwargs = Raise e) /\
     (kwargs !! "past_key_values" = None -> e = KeyError "past_key_values")) \/
  (exists passed,
     (forall optimized,
        fallback_call optimized default_config kwargs =
        result_bind (optimized passed) (fun outputs =>
        result_bind (Py.getitem outputs 0) (fun lm_logits =>
        result_bind (Py.getitem outputs 1) (fun past_key_values =>
        Ok {| out_loss := VNone;
              out_logits := lm_logits;
              out_past_key_values := past_key_values;
              out_hidden_states := VNone;
              out_attentions := VNone |})))) /\
     passed !! "position_ids" = None /\
     (forall key v, passed !! key = Some v -> none_or_bool v = false) /\
     (forall key v, key <> "position_ids" -> key <> "past_key_values" ->
        none_or_bool v = false -> kwargs !! key = Some v -> passed !! key = Some v) /\
     (forall key v, key <> "past_key_values" ->
        passed !! key = Some v -> kwargs !! key = Some v) /\
     exists past,
       kwargs !! "past_key_values" = Some past /\
       match past with
       | VNone =>
           if config.use_cache default_config
           then exists input_ids cache,
                  kwargs !! "input_ids" = Some (VTensor input_ids) /\
                  generate_past_key_values default_config (Py.len input_ids) 0 = Ok cache /\
                  passed !! "past_key_values" = Some (VPast cache)
           else passed !! "past_key_values" = None
       | VBool _ => passed !! "past_key_values" = None
       | _ => passed !! "past_key_values" = Some past
       end).
Proof.
  assert (Hclean : forall (m : gmap string pyval),
    let passed := filter (fun kv => none_or_bool (snd kv) = false) (delete "position_ids" m) in
    passed !! "position_ids" = None /\
    (forall key v, passed !! key = Some v -> none_or_bool v = false) /\
    (forall key v, key <> "position_ids" -> none_or_bool v = false ->
       m !! key = Some v -> passed !! key = Some v) /\
    (forall key v, passed !! key = Some v -> m !! key = Some v)).
  { intros m passed. unfold passed. repeat split.
    - apply map_lookup_filter_None. left. apply lookup_delete_eq.
    - intros key v Hv. apply map_lookup_filter_Some in Hv. tauto.
    - intros key v Hk Hv Hm. apply map_lookup_filter_Some.
      split; [now rewrite lookup_delete_ne by congruence | exact Hv].
    - intros key v Hv. apply map_lookup_filter_Some in Hv. destruct Hv as [Hv _].
      destruct (decide (key = "position_ids")) as [->|Hk].
      + now rewrite lookup_delete_eq in Hv.
      + now rewrite lookup_delete_ne in Hv by congruence. }
  unfold fallback_call.
  destruct (kwargs !! "past_key_values") as [past|] eqn:Hpast.
  2:{ left. exists (KeyError "past_key_values"). split; auto. }
  destruct (match past with VNone => true | _ => false end
            && config.use_cache default_config)%bool eqn:Hfresh.
  - apply andb_true_iff in Hfresh. destruct Hfresh as [Hnone Hcache].
    destruct past; try discriminate.
    destruct (kwargs !! "input_ids") as [[| | |input_ids|]|] eqn:Hids;
      try (left; eexists; split; [intros; reflexivity | congruence]).
    destruct (generate_past_key_values default_config (Py.len input_ids) 0)
      as [cache|e] eqn:Hgen; simpl;
      [|left; eexists; split; [intros; reflexivity | congruence]].
    right. destruct (Hclean (<["past_key_values" := VPast cache]> kwargs))
      as (Hpos & Hvals & Hkeep & Hfrom).
    eexists. split; [intros; reflexivity|].
    split; [exact Hpos|]. split; [exact Hvals|]. split; [|split].
    + intros key v Hk1 Hk2 Hv Hm. apply Hkeep; auto.
      now rewrite lookup_insert_ne by congruence.
    + intros key v Hk Hv. apply Hfrom in Hv.
      now rewrite lookup_insert_ne in Hv by congruence.
    + exists VNone. split; [reflexivity|]. rewrite Hcache.
      exists input_ids, cache. repeat split; auto.
      apply Hkeep; [discriminate | reflexivity | apply lookup_insert_eq].
  - simpl. right. destruct (Hclean kwargs) as (Hpos & Hvals & Hkeep & Hfrom).
    eexists. split; [intros; reflexivity|].
    split; [exact Hpos|]. split; [exact Hvals|]. split; [|split].
    + intros key v Hk1 Hk2 Hv Hm. apply Hkeep; auto.
    + intros key v Hk Hv. now apply Hfrom.
    + exists past. split; [reflexivity|].
      assert (Hdrop : none_or_bool past = true ->
                filter (fun kv => none_or_bool (snd kv) = false)
                       (delete "position_ids" kwargs) !! "past_key_values" = None).
      { intros Hnb.
        destruct (filter _ (delete "position_ids" kwargs) !! "past_key_values")
          as [v|] eqn:Hv; [|reflexivity].
        pose proof (Hvals _ _ Hv) as Hvb. apply Hfrom in Hv. congruence. }
      destruct past; simpl in Hfresh;
        try (apply Hkeep; [discriminate | reflexivity | exact Hpast]);
        try (apply Hdrop; reflexivity).
      rewrite Hfresh. apply Hdrop; reflexivity.
Qed.

End WrapperFacts.

(* ===================================================================== *)
(** * The further properties at work on sample inputs *)
(* ===================================================================== *)

Lemma X5_stop_token_inside_prompt_leaves_the_prompt_witness :
  total_sequence Samples.stop_run [72; 105] [72; 33; 105; 33] = "Hi".
Proof.
  apply (X5_stop_token_inside_prompt_leaves_the_prompt
           Samples.stop_run [72; 105] [72; 33; 105; 33] "!" 1);
    try reflexivity. simpl. lia.
Defined.

Lemma X7_xlm_language_choice_witness :
  exists langs language id skipped,
    lang2id Samples.xlm_model = Some langs /\
    langs !! language = Some id /\
    ["xx"; "fr"; "zz"] = (skipped ++ [language; "zz"])%list /\
    Forall (fun line => langs !! line = None) skipped.
Proof.
  pose proof (X7_xlm_language_choice (World := Fixture.World)
                (Fixture.make_args "xlm" "Hi" 1 2) Samples.xlm_model
                Fixture.char_tokenizer "Hi"
                (mkState false ["xx"; "fr"; "zz"] [])
                (Ok "Hi") (mkState false ["zz"] [EvSetLangId 1]) eq_refl) as H.
  simpl in H. destruct H as [_ [[Hsame _]|H]]; [discriminate Hsame|].
  destruct H as (langs & language & id & skipped & Hlangs & _ & Hid & _ & _ & Hcase).
  destruct Hcase as [(_ & _ & Hstdin)|(_ & Hstdin & Hskipped)]; [discriminate Hstdin|].
  exists langs, language, id, skipped. auto.
Defined.

Lemma X8_record_fields_are_consistent_witness :
  exists records s' r,
    benchmark_loop (Fixture.run_of Fixture.base_args "Hi") Fixture.start = (Ok records, s') /\
    In r records /\
    rec.input_lengths r = [2] /\
    rec.max_length r = 1024 + 2 /\
    rec.total_tokens r = Py.sum (rec.output_lengths r).
Proof.
  destruct (benchmark_loop (Fixture.run_of Fixture.base_args "Hi") Fixture.start)
    as [[[|r records]|e] s'] eqn:Hrun; try (vm_compute in Hrun; discriminate Hrun).
  exists (r :: records), s', r. split; [reflexivity|].
  assert (Hin : In r (r :: records)) by (left; reflexivity).
  split; [exact Hin|].
  destruct (X8_record_fields_are_consistent (World := Fixture.World)
              (Fixture.run_of Fixture.base_args "Hi") Fixture.start
              (r :: records) s' r Hrun Hin)
    as (n & _ & Hlen & Hmax & _ & Htotal & _).
  assert (Hr : rec.input_lengths r = [2]).
  { vm_compute in Hrun. injection Hrun as <- _ _. reflexivity. }
  split; [exact Hr|]. split; [|exact Htotal].
  rewrite Hmax. rewrite Hr in Hlen. injection Hlen as <-. reflexivity.
Defined.

Lemma X9_loop_stops_at_first_failure_witness :
  exists done s1,
    for_each (iteration (SV := Fixture.stalling_services)
                (Fixture.run_of Fixture.base_args "Hi"))
             (Py.range 1) [] Fixture.stalling = (Ok done, s1) /\
    Py.len done = 1 /\
    iteration (SV := Fixture.stalling_services)
      (Fixture.run_of Fixture.base_args "Hi") 1 s1 =
      (Raise (ZeroDivisionError "float division by zero"),
       snd (benchmark_loop (SV := Fixture.stalling_services)
              (Fixture.run_of Fixture.base_args "Hi") Fixture.stalling)).
Proof.
  destruct (benchmark_loop (SV := Fixture.stalling_services)
              (Fixture.run_of Fixture.base_args "Hi") Fixture.stalling)
    as [[records|e] s'] eqn:Hrun; [vm_compute in Hrun; discriminate Hrun|].
  assert (He : e = ZeroDivisionError "float division by zero").
  { vm_compute in Hrun. now injection Hrun as <- _. }
  destruct (X9_loop_stops_at_first_failure (SV := Fixture.stalling_services)
              (Fixture.run_of Fixture.base_args "Hi") Fixture.stalling e s' Hrun)
    as (i & done & s1 & Hi & Hdone & Hlen & Hfail).
  change (0 <= i < 1 + 2) in Hi.
  assert (Hcases : i = 0 \/ i = 1 \/ i = 2) by lia.
  destruct Hcases as [-> | [-> | ->]].
  - vm_compute in Hdone. injection Hdone as <- <-.
    vm_compute in Hfail. discriminate Hfail.
  - exists done, s1. subst e. auto.
  - vm_compute in Hdone. discriminate Hdone.
Defined.


Lemma X11_ctrl_empty_prompt_fails_before_generate_witness :
  iteration Samples.ctrl_run 0 Fixture.start =
    (Raise (IndexError "list index out of range"), mkState true [] []).
Proof.
  assert (Hcodes : control_codes (run_tokenizer Samples.ctrl_run) <> []) by discriminate.
  exact (X11_ctrl_empty_prompt_fails_before_generate (SV := Fixture.services)
           Samples.ctrl_run 0 Fixture.start eq_refl eq_refl Hcodes eq_refl).
Defined.

Lemma X12_missing_preset_prompt_stops_first_witness :
  main Samples.preset_args Fixture.start =
    (Raise (ValueError "Prompt file does not exist: prompts/short.txt"), Fixture.start).
Proof.
  exact (X12_missing_preset_prompt_stops_first (SV := Fixture.services)
           Samples.preset_args "short" Fixture.start eq_refl eq_refl eq_refl).
Defined.

Lemma X13_failed_run_dumps_only_after_metrics_witness :
  exists events,
    trace (snd (main (SV := Fixture.full_disk_services) Fixture.base_args Fixture.start))
      = (trace Fixture.start ++ events)%list /\
    (Forall (fun ev => is_dump_event ev = false) events \/
     exists quiet records metrics w,
       Forall (fun ev => is_dump_event ev = false) quiet /\
       populate_metrics records = Ok metrics /\
       ((events = (quiet ++ [EvDumpRecords "records.json" records])%list /\
         fst (dump_records (Services := Fixture.full_disk_services)
                "records.json" records w)
           = Raise (OSError "[Errno 28] No space left on device")) \/
        (events = (quiet ++ [EvDumpRecords "records.json" records;
                             EvDumpMetrics "metrics.json" metrics])%list /\
         fst (dump_records (Services := Fixture.full_disk_services)
                "records.json" records w) = Ok tt /\
         fst (dump_metrics (Services := Fixture.full_disk_services)
                "metrics.json" metrics
                (snd (dump_records (Services := Fixture.full_disk_services)
                        "records.json" records w)))
           = Raise (OSError "[Errno 28] No space left on device")))).
Proof.
  destruct (main (SV := Fixture.full_disk_services) Fixture.base_args Fixture.start)
    as [[records|e] s'] eqn:Hrun; [vm_compute in Hrun; discriminate Hrun|].
  assert (He : e = OSError "[Errno 28] No space left on device").
  { vm_compute in Hrun. now injection Hrun as <- _. }
  subst e.
  exact (X13_failed_run_dumps_only_after_metrics (SV := Fixture.full_disk_services)
           Fixture.base_args Fixture.start _ s' Hrun).
Defined.

(** On the full disk the run raises after both files have been opened. *)
Example main_with_full_disk :
  fst (main (SV := Fixture.full_disk_services) Fixture.base_args Fixture.start)
    = Raise (OSError "[Errno 28] No space left on device") /\
  map is_dump_event
      (trace (snd (main (SV := Fixture.full_disk_services)
                     Fixture.base_args Fixture.start)))
    = [false; false; false; false; false; false; true; true].
Proof. vm_compute. split; reflexivity. Qed.

Lemma X14_trace_of_a_successful_run_witness :
  exists records s' loop_events,
    main Fixture.base_args Fixture.start = (Ok records, s') /\
    Forall (loop_event Fixture.base_args true) loop_events /\
    List.length (List.filter is_generate_event loop_events) = List.length records.
Proof.
  destruct (main Fixture.base_args Fixture.start)
    as [[records|e] s'] eqn:Hrun; [|vm_compute in Hrun; discriminate Hrun].
  destruct (X14_trace_of_a_successful_run (World := Fixture.World)
              Fixture.base_args Fixture.start records s' Hrun)
    as (mt & mc & tc & loop_events & metrics & _ & _ & _ & Hevents & Hcount).
  exists records, s', loop_events. split; [reflexivity|].
  split; [exact Hevents | exact Hcount].
Defined.

Lemma X16_past_key_values_shapes_witness :
  generate_past_key_values Samples.bloom_config 3 1 =
    Ok [([48; 64; 1], [48; 1; 64]); ([48; 64; 1], [48; 1; 64])] /\
  exists layers heads per_head,
    sparse_model_config Samples.bloom_config = Ok (layers, heads, per_head) /\
    Py.len [([48; 64; 1], [48; 1; 64]); ([48; 64; 1], [48; 1; 64])] = Z.max layers 0.
Proof.
  assert (Hrun : generate_past_key_values Samples.bloom_config 3 1 =
                 Ok [([48; 64; 1], [48; 1; 64]); ([48; 64; 1], [48; 1; 64])])
    by (vm_compute; reflexivity).
  split; [exact Hrun|].
  destruct (X16_past_key_values_shapes _ _ _ _ Hrun)
    as (layers & heads & per_head & Hcfg & Hlen & _).
  exists layers, heads, per_head. split; [exact Hcfg | exact Hlen].
Defined.

Lemma X17_prepare_jit_inputs_extends_mask_witness :
  exists out,
    prepare_jit_inputs Samples.encoded_batch ["enable jit"] Samples.gpt2_config = Ok out /\
    out !! "attention_mask" = Some (VTensor [[0; 1; 1]]) /\
    out !! "input_ids" = Some (VTensor [[5; 6]]).
Proof.
  destruct (prepare_jit_inputs Samples.encoded_batch ["enable jit"] Samples.gpt2_config)
    as [out|e] eqn:Hrun; [|vm_compute in Hrun; discriminate Hrun].
  exists out. split; [reflexivity|].
  destruct (X17_prepare_jit_inputs_extends_mask _ _ _ _ Hrun)
    as (mask & Hmask & Hout & Hkeep & _).
  assert (Hm : mask = [[1; 1]]).
  { assert (H : Some (VTensor mask) = Some (VTensor [[1; 1]]))
      by (rewrite <- Hmask; vm_compute; reflexivity).
    now injection H. }
  subst mask. split; [exact Hout|].
  rewrite Hkeep by discriminate. vm_compute. reflexivity.
Defined.

Lemma X19_text_handed_to_the_tokenizer_witness :
  tokenize_prompt Samples.xlnet_run Fixture.start =
    (Ok [tok_encode Fixture.char_tokenizer false "Once. Hi"], Fixture.start) /\
  forall enc s',
    tokenize_prompt Samples.xlnet_run Fixture.start = (Ok enc, s') ->
    enc = [tok_encode Fixture.char_tokenizer false "Once. Hi"].
Proof.
  split; [reflexivity|]. intros enc s' Hrun.
  destruct (X19_text_handed_to_the_tokenizer (World := Fixture.World)
              Samples.xlnet_run Fixture.start enc s' Hrun) as [Henc _].
  exact Henc.
Defined.
